(** * Autoruns: registry autostart points and their running processes

    A shallow embedding of [autoruns.py], the Volatility plugin that walks
    the Run keys, the services, AppInit_DLLs and the Winlogon keys of the
    registry hives found in a memory image, and matches every path it finds
    against the command lines and loaded modules of the running processes.

    Python byte strings are [string]; the dictionaries built by the plugin
    are [gmap]s; the set of process identifiers is a [gset Z]; exceptions
    are the left summand of [result]. *)

From Stdlib Require Import ZArith Ascii String List Lia.
From stdpp Require Import base list gmap strings.

Local Open Scope string_scope.
Local Open Scope Z_scope.

(** ** Python's [str] methods used by the plugin *)

Module PyStr.

(** [c.lower()] on one byte: only the ASCII letters A-Z move. *)
Definition is_upper (c : ascii) : bool :=
  (65 <=? nat_of_ascii c)%nat && (nat_of_ascii c <=? 90)%nat.

Definition lower_ascii (c : ascii) : ascii :=
  if is_upper c then ascii_of_nat (nat_of_ascii c + 32) else c.

Definition is_lower (c : ascii) : bool :=
  (97 <=? nat_of_ascii c)%nat && (nat_of_ascii c <=? 122)%nat.

Definition upper_ascii (c : ascii) : ascii :=
  if is_lower c then ascii_of_nat (nat_of_ascii c - 32) else c.

(** [s.lower()] and [s.upper()]. *)
Fixpoint lower (s : string) : string :=
  match s with
  | EmptyString => EmptyString
  | String c s' => String (lower_ascii c) (lower s')
  end.

Fixpoint upper (s : string) : string :=
  match s with
  | EmptyString => EmptyString
  | String c s' => String (upper_ascii c) (upper s')
  end.

(** [s.startswith(p)]. *)
Fixpoint startswith (p s : string) : bool :=
  match p, s with
  | EmptyString, _ => true
  | String _ _, EmptyString => false
  | String a p', String b s' => if ascii_dec a b then startswith p' s' else false
  end.

(** [p in s]: [p] occurs in [s] as a contiguous substring. *)
Fixpoint contains (p s : string) : bool :=
  startswith p s ||
  match s with
  | EmptyString => false
  | String _ s' => contains p s'
  end.

(** [s.replace(old, new)] for a non-empty [old]: the occurrences of [old]
    are found from the left and do not overlap.  [skip] counts the bytes of
    an occurrence just replaced that are still to be passed over. *)
Fixpoint replace_from (old new : string) (skip : nat) (s : string) : string :=
  match s with
  | EmptyString => EmptyString
  | String c s' =>
      match skip with
      | S k => replace_from old new k s'
      | O =>
          if startswith old s
          then new ++ replace_from old new (String.length old - 1) s'
          else String c (replace_from old new O s')
      end
  end.

(** With an empty [old] Python puts [new] before every byte and at the end. *)
Fixpoint interleave (new s : string) : string :=
  match s with
  | EmptyString => new
  | String c s' => new ++ String c (interleave new s')
  end.

Definition replace (old new s : string) : string :=
  match old with
  | EmptyString => interleave new s
  | String _ _ => replace_from old new O s
  end.

(** [s.split(sep)] for a separator of one byte: every occurrence cuts, so
    the result is never empty and adjacent separators give empty pieces. *)
Fixpoint split (sep : ascii) (s : string) : list string :=
  match s with
  | EmptyString => [EmptyString]
  | String c s' =>
      if ascii_dec c sep then EmptyString :: split sep s'
      else match split sep s' with
           | [] => [String c EmptyString]
           | w :: ws => String c w :: ws
           end
  end.

(** Truth value of a string: the empty string is false. *)
Definition truthy (s : string) : bool :=
  match s with EmptyString => false | String _ _ => true end.

End PyStr.

Definition NUL : string := String "000"%char EmptyString.
Definition DQUOTE : string := String "034"%char EmptyString.
Definition SQUOTE : string := String "039"%char EmptyString.

(** ** [sanitize_paths] *)

Definition sanitize_paths (path : string) : string :=
  let path := PyStr.lower path in
  let path := PyStr.replace "%systemroot%\" EmptyString path in
  let path := PyStr.replace "\systemroot\" EmptyString path in
  let path := PyStr.replace "%windir%" EmptyString path in
  let path := PyStr.replace "\??\" EmptyString path in
  let path := PyStr.replace NUL EmptyString path in
  let path := PyStr.replace SQUOTE EmptyString (PyStr.replace DQUOTE EmptyString path) in
  path.

(** ** Exceptions *)

Inductive exn : Set :=
| AttributeError   (* a method looked up on [None] *)
| ValueError       (* [int] of a string that is no integer literal *)
| KeyError         (* subscript of a dictionary by a key it lacks *)
| UnboundLocalError. (* a local variable read before any assignment *)

Definition result (A : Type) : Type := exn + A.

Definition ret {A} (a : A) : result A := inr a.
Definition raise {A} (e : exn) : result A := inl e.
Definition bind {A B} (m : result A) (k : A -> result B) : result B :=
  match m with
  | inl e => inl e
  | inr a => k a
  end.

Notation "x <-- m ;; k" := (bind m (fun x => k))
  (at level 100, m at next level, right associativity).

(** ** The process inventory *)

(** What the plugin reads of a process: its identifier and, through the
    process environment block when there is one, its command line. *)
Record PEB := { CommandLine : option string }.
Record Task := { UniqueProcessId : Z; Peb : option PEB }.
Record Module := { FullDllName : option string }.

(** [x or default] on an optional string: [None] and the empty string are
    both false. *)
Definition str_or (x : option string) (default : string) : string :=
  match x with
  | Some s => if PyStr.truthy s then s else default
  | None => default
  end.

(** [get_dll_list]: [self.process_dict], from the tasks of [pslist] and the
    modules [get_load_modules] gives for each; a task without a PEB is left
    out, and a later task overwrites an earlier one with the same pid. *)
Definition get_dll_list (tasks : list (Task * list Module))
  : gmap Z (Task * list Module) :=
  foldl (fun d tm =>
           match Peb (fst tm) with
           | Some _ => <[UniqueProcessId (fst tm) := tm]> d
           | None => d
           end) ∅ tasks.

(** The two tests of the loop of [find_pids_for_imagepath], for the already
    sanitized [module]: on the command line of a process that has a PEB, and
    on the full name of one loaded module. *)
Definition cmdline_hit (module : string) (t : Task) : bool :=
  match Peb t with
  | Some peb =>
      PyStr.contains (PyStr.lower module)
        (sanitize_paths (PyStr.lower (str_or (CommandLine peb) "[no cmdline]")))
  | None => false
  end.

Definition dll_hit (module : string) (dll : Module) : bool :=
  PyStr.contains (PyStr.lower module)
    (sanitize_paths (PyStr.lower (str_or (FullDllName dll) "[no dllname]"))).

(** The body of that loop: the [pids.append(pid)] one process causes, one
    for its command line and one for each of its modules that matches. *)
Definition appends_of (module : string) (pid : Z) (tm : Task * list Module)
  : list Z :=
  (if cmdline_hit module (fst tm) then [pid] else [])
  ++ flat_map (fun dll => if dll_hit module dll then [pid] else []) (snd tm).

(** [find_pids_for_imagepath]. The dictionary is walked in some order and
    the result is [list(set(pids))]; the order of both is Python's hash
    order, here the order of stdpp's [map_to_list] and [elements]. *)
Definition find_pids_for_imagepath
    (process_dict : gmap Z (Task * list Module)) (module : string) : list Z :=
  let module := sanitize_paths module in
  let pids :=
    if PyStr.truthy module
    then flat_map (fun '(pid, tm) => appends_of module pid tm)
                  (map_to_list process_dict)
    else [] in
  elements (list_to_set pids : gset Z).

(** The same call when the argument may be [None]: [sanitize_paths] starts
    with [path.lower()], which [None] does not have. *)
Definition find_pids_for_imagepath_opt
    (process_dict : gmap Z (Task * list Module)) (module : option string)
  : result (list Z) :=
  match module with
  | None => raise AttributeError
  | Some m => ret (find_pids_for_imagepath process_dict m)
  end.

(** ** The registry as the plugin sees it *)

(** A value of a key. [vData] is the string [dict_for_key] stores for it,
    [str(data)] after the rendering that depends on the value's type: the
    text of a REG_SZ, the decimal digits of a REG_DWORD, the hex dump of a
    REG_BINARY. *)
Record RegistryValue := { vName : string; vData : string }.

(** A key, with the values [rawreg.values] and the subkeys [rawreg.subkeys]
    enumerate, in their order. *)
#[warnings="-register-all"] Inductive RegistryKey : Type :=
  mkKey { Name : string;
          LastWriteTime : Z;
          values : list RegistryValue;
          subkeys : list RegistryKey }.

(** [dict_for_key]: the dictionary from value names to rendered data; of
    two values with one name the later is kept. *)
Definition dict_for_key (key : RegistryKey) : gmap string string :=
  foldl (fun valdict v => <[vName v := vData v]> valdict) ∅ (values key).

(** [d.get(k, default)], and [d[k]] on the tables of the services. *)
Definition get_default (d : gmap string string) (k default : string) : string :=
  match d !! k with
  | Some v => v
  | None => default
  end.

Definition subscript {V} (d : gmap Z V) (k : Z) : result V :=
  match d !! k with
  | Some v => ret v
  | None => raise KeyError
  end.

(** ** [int] of a string *)

Module PyInt.

Definition is_space (c : ascii) : bool :=
  let n := nat_of_ascii c in
  ((9 <=? n)%nat && (n <=? 13)%nat) || (n =? 32)%nat.

Definition is_digit (c : ascii) : bool :=
  (48 <=? nat_of_ascii c)%nat && (nat_of_ascii c <=? 57)%nat.

Fixpoint lstrip (s : string) : string :=
  match s with
  | String c s' => if is_space c then lstrip s' else s
  | EmptyString => EmptyString
  end.

(** The digits at the head of [s], read in base ten onto [acc], and what
    follows them; [seen] tells whether there was a digit at all. *)
Fixpoint digits (acc : Z) (seen : bool) (s : string) : Z * bool * string :=
  match s with
  | String c s' =>
      if is_digit c
      then digits (10 * acc + Z.of_nat (nat_of_ascii c - 48)) true s'
      else (acc, seen, s)
  | EmptyString => (acc, seen, s)
  end.

(** [int(s)] in base ten, as the documentation of [int] has it: the
    literal is a run of digits, may be preceded by + or - with no space in
    between, and may be surrounded by white space; anything else is a
    [ValueError]. *)
Definition of_string (s : string) : result Z :=
  let s := lstrip s in
  let '(sign, s) :=
    match s with
    | String "-" s' => (-1, s')
    | String "+" s' => (1, s')
    | _ => (1, s)
    end in
  let '(n, seen, rest) := digits 0 false s in
  if seen && negb (PyStr.truthy (lstrip rest))
  then ret (sign * n)
  else raise ValueError.

End PyInt.

(** [int(d.get(k, -1))]: the default is already an integer. *)
Definition get_int (d : gmap string string) (k : string) : result Z :=
  match d !! k with
  | Some s => PyInt.of_string s
  | None => ret (-1)
  end.

(** ** The tables of the services *)

Definition service_types : gmap Z string :=
  list_to_map
    [ (0x001, "Kernel driver");
      (0x002, "File system driver");
      (0x004, "Argumetns for adapter");
      (0x008, "File system driver");
      (0x010, "Own_Process");
      (0x020, "Share_Process");
      (0x100, "Interactive");
      (0x110, "Interactive");
      (0x120, "Share_process Interactive");
      (-1, "Unknown") ].

Definition service_startup : gmap Z string :=
  list_to_map
    [ (0x00, "Boot Start");
      (0x01, "System Start");
      (0x02, "Auto Start");
      (0x03, "Manual");
      (0x04, "Disabled");
      (-1, "Unknown") ].

Definition WINLOGON_NOTIFICATION_EVENTS : list string :=
  [ "Lock"; "Logoff"; "Logon"; "Shutdown"; "StartScreenSaver"; "StartShell";
    "Startup"; "StopScreenSaver"; "Unlock" ].

(** ** The records the extractors return *)

(** [parse_autoruns_key] returns tuples [(v, data, pids)]. *)
Record RunEntry := {
  run_value : string;
  run_data : string;
  run_pids : list Z }.

(** [parse_service_key] returns the tuple [(name, timestamp, display_name,
    service_startup[startup], service_types[type], image_path, entry, pids)]. *)
Record ServiceEntry := {
  svc_name : string;
  svc_timestamp : Z;
  svc_display_name : string;
  svc_startup : string;
  svc_type : string;
  svc_image_path : string;
  svc_entry : option string;
  svc_pids : list Z }.

(** [parse_winlogon_registration_key] returns [(dllname, events,
    key.LastWriteTime, pids)]. *)
Record NotifyEntry := {
  reg_dllname : string;
  reg_events : list (string * string);
  reg_timestamp : Z;
  reg_pids : list Z }.

(** ** [get_appinit_dlls] *)

(** [appinit_values] is the string [reg_get_value] read for AppInit_DLLs;
    the result is [None] on the branch that returns [None]. *)
Definition get_appinit_dlls (appinit_values : string) : option (list string) :=
  let appinit_dlls := PyStr.split " " (PyStr.replace NUL EmptyString appinit_values) in
  if (0 <? length appinit_dlls)%nat then Some appinit_dlls else None.

(** ** [parse_service_key] and [get_services] *)

(** The first subkey called Parameters, where the loop breaks. *)
Definition find_parameters (service_key : RegistryKey) : option RegistryKey :=
  find (fun sub => bool_decide (Name sub = "Parameters")) (subkeys service_key).

(** A dictionary is true when it is not empty. *)
Definition dict_truthy (d : gmap string string) : bool :=
  negb (bool_decide (d = ∅)).

Definition opt_truthy (x : option string) : bool :=
  match x with
  | Some s => PyStr.truthy s
  | None => false
  end.

(** What the branch on the svchost marker leaves in [parameters],
    [timestamp] and [entry]. *)
Definition resolve_svchost (service_key : RegistryKey) (image_path : string)
  : option (gmap string string) * Z * option string :=
  if PyStr.contains "svchost.exe -k" image_path then
    match find_parameters service_key with
    | Some sub =>
        let parameters := dict_for_key sub in
        let entry :=
          if dict_truthy parameters then
            match parameters !! "ServiceDll" with
            | Some dll =>
                let main := parameters !! "ServiceMain" in
                let entry :=
                  match main with
                  | Some m => if PyStr.truthy m then dll ++ " (" ++ m ++ ")" else dll
                  | None => dll
                  end in
                Some (PyStr.replace NUL EmptyString entry)
            | None => None
            end
          else None in
        (Some parameters, LastWriteTime sub, entry)
    | None => (None, LastWriteTime service_key, None)
    end
  else (None, LastWriteTime service_key, None).

Definition parse_service_key (process_dict : gmap Z (Task * list Module))
    (service_key : RegistryKey) : result (option ServiceEntry) :=
  let service_dict := dict_for_key service_key in
  let name := Name service_key in
  let display_name :=
    PyStr.replace NUL EmptyString (get_default service_dict "DisplayName" "Unknown") in
  startup <-- get_int service_dict "Start" ;;
  type <-- get_int service_dict "Type" ;;
  let image_path :=
    PyStr.replace NUL EmptyString (get_default service_dict "ImagePath" "Unknown") in
  let '(parameters, timestamp, entry) := resolve_svchost service_key image_path in
  if bool_decide (startup ∈ [0; 1; 2]) then
    pids <-- (if opt_truthy entry
              then find_pids_for_imagepath_opt process_dict
                     (parameters ≫= (fun d => d !! "ServiceDll"))
              else ret (find_pids_for_imagepath process_dict image_path)) ;;
    startup_name <-- subscript service_startup startup ;;
    type_name <-- subscript service_types type ;;
    ret (Some {| svc_name := name; svc_timestamp := timestamp;
                 svc_display_name := display_name;
                 svc_startup := startup_name; svc_type := type_name;
                 svc_image_path := image_path; svc_entry := entry;
                 svc_pids := pids |})
  else ret None.

(** The test of [get_services] on a parsed service. *)
Definition service_shown (verbose : bool) (service : ServiceEntry) : bool :=
  verbose ||
  (negb (PyStr.contains "system32" (PyStr.lower (svc_image_path service)))
   && negb (bool_decide (svc_image_path service = "Unknown"))).

(** The loop of [get_services] over the subkeys of Services, with the list
    [services] built so far. *)
Fixpoint get_services_loop (verbose : bool)
    (process_dict : gmap Z (Task * list Module))
    (service_keys : list RegistryKey) (services : list ServiceEntry)
  : result (list ServiceEntry) :=
  match service_keys with
  | [] => ret services
  | key :: rest =>
      service <-- parse_service_key process_dict key ;;
      get_services_loop verbose process_dict rest
        (match service with
         | Some s => if service_shown verbose s then services ++ [s] else services
         | None => services
         end)
  end.

Definition get_services (verbose : bool)
    (process_dict : gmap Z (Task * list Module))
    (service_keys : list RegistryKey) : result (list ServiceEntry) :=
  get_services_loop verbose process_dict service_keys [].

(** ** The extractors that walk a dictionary *)

(** The order in which [for k in d] visits a dictionary is CPython's hash
    order. It is a parameter here: [dict_items d] lists the items of [d] in
    the order of the walk. *)
Definition dict_order := gmap string string -> list (string * string).

Definition dict_order_ok (dict_items : dict_order) : Prop :=
  forall d, dict_items d ≡ₚ map_to_list d.

(** [parse_autoruns_key]. *)
Definition parse_autoruns_key (dict_items : dict_order)
    (process_dict : gmap Z (Task * list Module)) (key : RegistryKey)
  : list RunEntry :=
  let valdict := dict_for_key key in
  flat_map
    (fun '(v, data) =>
       if negb (bool_decide (data ∈ [EmptyString; NUL]))
       then [ {| run_value := v;
                 run_data := PyStr.replace NUL EmptyString data;
                 run_pids := find_pids_for_imagepath process_dict data |} ]
       else [])
    (dict_items valdict).

(** The loop of [parse_winlogon_registration_key] that looks for the value
    whose name is dllname in whatever case, from the state [dllname] is in:
    unbound ([None]) or bound; every match assigns it again. *)
Definition dllname_loop (dllname : option string) (items : list (string * string))
  : option string :=
  foldl (fun dllname '(dictkey, data) =>
           if bool_decide (PyStr.lower dictkey = "dllname")
           then Some data else dllname)
        dllname items.

(** Before the loop [dllname] is unbound. *)
Definition find_dllname (items : list (string * string)) : option string :=
  dllname_loop None items.

(** [parse_winlogon_registration_key]. *)
Definition parse_winlogon_registration_key (dict_items : dict_order)
    (process_dict : gmap Z (Task * list Module)) (key : RegistryKey)
  : result NotifyEntry :=
  let k := dict_for_key key in
  let events :=
    flat_map (fun evt =>
                match k !! evt with
                | Some handler => [(evt, PyStr.replace NUL EmptyString handler)]
                | None => []
                end)
             WINLOGON_NOTIFICATION_EVENTS in
  match find_dllname (dict_items k) with
  | None => raise UnboundLocalError
  | Some dllname =>
      let pids := find_pids_for_imagepath process_dict dllname in
      ret {| reg_dllname := PyStr.replace NUL EmptyString dllname;
             reg_events := events;
             reg_timestamp := LastWriteTime key;
             reg_pids := pids |}
  end.

(** The order of stdpp's [map_to_list], one order a walk can take. *)
Definition stdpp_items : dict_order := map_to_list.

(** ** Words used in the statements *)

(** No byte of [s] satisfies [bad]. *)
Fixpoint char_free (bad : ascii -> bool) (s : string) : bool :=
  match s with
  | EmptyString => true
  | String c s' => negb (bad c) && char_free bad s'
  end.

(** The tokens [sanitize_paths] deletes before the NUL bytes and quotes. *)
Definition placeholder_tokens : list string :=
  [ "%systemroot%\"; "\systemroot\"; "%windir%"; "\??\" ].

(** A process of the inventory matches the sanitized [module] by its
    command line or by one of its loaded modules. *)
Definition process_matches (module : string) (tm : Task * list Module) : bool :=
  cmdline_hit module (fst tm) || existsb (dll_hit module) (snd tm).

(** Everything [sanitize_paths] deletes, in the order it does. *)
Definition deleted_tokens : list string :=
  placeholder_tokens ++ [NUL; DQUOTE; SQUOTE].

(** [sep.join(pieces)]. *)
Fixpoint join (sep : string) (pieces : list string) : string :=
  match pieces with
  | [] => EmptyString
  | [w] => w
  | w :: ws => w ++ sep ++ join sep ws
  end.

(** The service key with its subkeys taken away. *)
Definition without_subkeys (key : RegistryKey) : RegistryKey :=
  mkKey (Name key) (LastWriteTime key) (values key) [].

(** The name of an item of a dictionary is dllname in some case. *)
Definition names_dllname (kv : string * string) : Prop :=
  PyStr.lower (fst kv) = "dllname".

(** ** Sample keys and inventories *)

(** A key from the names and data of its values. *)
Definition registry_key (name : string) (lwt : Z) (vals : list (string * string))
    (subs : list RegistryKey) : RegistryKey :=
  mkKey name lwt (map (fun nv => {| vName := fst nv; vData := snd nv |}) vals) subs.

Definition spooler_task : Task * list Module :=
  ({| UniqueProcessId := 880;
      Peb := Some {| CommandLine := Some "C:\Windows\System32\spoolsv.exe" |} |},
   [ {| FullDllName := Some "C:\Windows\System32\localspl.dll" |} ]).

Definition manual_service : RegistryKey :=
  mkKey "Fax" 20
    [ {| vName := "Start"; vData := "3" |};
      {| vName := "Type"; vData := "16" |};
      {| vName := "ImagePath"; vData := "C:\Fax\fxssvc.exe" |} ] [].

Definition spooler : RegistryKey :=
  registry_key "Spooler" 10
    [ ("Start", "2"); ("Type", "32");
      ("ImagePath", "C:\Windows\System32\spoolsv.exe") ] [].

Definition no_start : RegistryKey :=
  registry_key "NoStart" 11 [ ("Type", "16"); ("ImagePath", "C:\a.exe") ] [].

Definition no_type : RegistryKey :=
  registry_key "NoType" 12 [ ("Start", "2"); ("ImagePath", "C:\a.exe") ] [].

Definition bad_start : RegistryKey :=
  registry_key "BadStart" 13
    [ ("Start", "abc"); ("Type", "16"); ("ImagePath", "C:\a.exe") ] [].

Definition netsvcs_inventory : gmap Z (Task * list Module) :=
  {[ 1234 := ({| UniqueProcessId := 1234;
                 Peb := Some {| CommandLine := Some "svchost.exe -k netsvcs" |} |},
              [ {| FullDllName := Some "C:\Svc\net.dll" |} ]) ]}.

Definition netsvcs_values : list (string * string) :=
  [ ("Start", "2"); ("Type", "32"); ("DisplayName", "Net service");
    ("ImagePath", "%SystemRoot%\System32\svchost.exe -k netsvcs") ].

Definition netsvcs_service : RegistryKey :=
  registry_key "NetSvc" 10 netsvcs_values
    [ registry_key "Security" 50 [] [];
      registry_key "Parameters" 99
        [ ("ServiceDll", "C:\Svc\net.dll"); ("ServiceMain", "Main") ] [] ].

Definition netsvcs_record : ServiceEntry :=
  {| svc_name := "NetSvc";
     svc_timestamp := 99;
     svc_display_name := "Net service";
     svc_startup := "Auto Start";
     svc_type := "Share_Process";
     svc_image_path := "%SystemRoot%\System32\svchost.exe -k netsvcs";
     svc_entry := Some "C:\Svc\net.dll (Main)";
     svc_pids := [1234] |}.

Definition notify_key : RegistryKey :=
  mkKey "crypt32" 3
    [ {| vName := "DllName"; vData := "C:\a.dll" |};
      {| vName := "Logon"; vData := "OnLogon" |};
      {| vName := "DLLNAME"; vData := "C:\b.dll" |} ] [].

Definition notify_key_without_dll : RegistryKey :=
  mkKey "empty" 4 [ {| vName := "Logon"; vData := "OnLogon" |} ] [].

(** ** The rest of the plugin *)

(** [s.split(sep)[-1]]: the piece after the last separator. *)
Definition last_piece (sep : ascii) (s : string) : string :=
  List.last (PyStr.split sep s) EmptyString.

(** *** [hive_name] *)

(** An attribute of the hive object: the profile may lack it, and then
    reading it raises [AttributeError]; when it is there, [.v()] gives a
    string or [None]. *)
Inductive attribute : Type :=
| NoAttribute
| Attribute (v : option string).

Record CMHIVE := {
  FileFullPath : attribute;
  FileUserName : attribute;
  HiveRootPath : attribute }.

(** The [or] chain is evaluated from the left and stops at the first true
    value; [AttributeError], at whichever attribute is reached, is caught
    and gives the default name. *)
Definition hive_name (hive : CMHIVE) : string :=
  match FileFullPath hive with
  | NoAttribute => "[no name]"
  | Attribute (Some (String c s)) => String c s
  | Attribute _ =>
      match FileUserName hive with
      | NoAttribute => "[no name]"
      | Attribute (Some (String c s)) => String c s
      | Attribute _ =>
          match HiveRootPath hive with
          | NoAttribute => "[no name]"
          | Attribute (Some (String c s)) => String c s
          | Attribute _ => "[no name]"
          end
      end
  end.

(** *** The choice of the Run keys in [get_autoruns] *)

Definition SOFTWARE_RUN_KEYS : list string :=
  [ "Microsoft\Windows\CurrentVersion\Run";
    "Microsoft\Windows\CurrentVersion\RunOnce";
    "Microsoft\Windows\CurrentVersion\RunServices";
    "Microsoft\Windows\CurrentVersion\Policies\Explorer\Run";
    "Wow6432Node\Microsoft\Windows\CurrentVersion\Run";
    "Wow6432Node\Microsoft\Windows\CurrentVersion\RunOnce";
    "Wow6432Node\Microsoft\Windows\CurrentVersion\Policies\Explorer\Run";
    "Microsoft\Windows NT\CurrentVersion\Terminal Server\Install\Software\Microsoft\Windows\CurrentVersion\Run";
    "Microsoft\Windows NT\CurrentVersion\Terminal Server\Install\Software\Microsoft\Windows\CurrentVersion\RunOnce" ].

Definition NTUSER_RUN_KEYS : list string :=
  [ "Software\Microsoft\Windows\CurrentVersion\Run";
    "Software\Microsoft\Windows\CurrentVersion\RunOnce";
    "Software\Microsoft\Windows\CurrentVersion\RunServices";
    "Software\Microsoft\Windows\CurrentVersion\RunServicesOnce";
    "Software\Microsoft\Windows\CurrentVersion\Policies\Explorer\Run";
    "Software\Microsoft\Windows NT\CurrentVersion\Terminal Server\Install\Software\Microsoft\Windows\CurrentVersion\Run";
    "Software\Microsoft\Windows NT\CurrentVersion\Terminal Server\Install\Software\Microsoft\Windows\CurrentVersion\RunOnce";
    "Software\Microsoft\Windows NT\CurrentVersion\Run";
    "Software\Wow6432Node\Microsoft\Windows\CurrentVersion\Policies\Explorer\Run";
    "Software\Wow6432Node\Microsoft\Windows\CurrentVersion\Run" ].

(** The branches of the test on the name of a hive whose root was found:
    its keys are searched, or the hive is passed over (the system hive is
    only remembered). *)
Inductive hive_kind : Set :=
| NtUserHive
| SoftwareHive
| SystemHive
| OtherHive.

Definition classify_hive (name : string) : hive_kind :=
  let file := PyStr.lower (last_piece "\" name) in
  if PyStr.contains "ntuser.dat" file then NtUserHive
  else if PyStr.contains "software" file then SoftwareHive
  else if PyStr.contains "system" file then SystemHive
  else OtherHive.

(** [keys], for the hives that reach the loop over the keys. *)
Definition run_keys (kind : hive_kind) : option (list string) :=
  match kind with
  | NtUserHive => Some NTUSER_RUN_KEYS
  | SoftwareHive => Some SOFTWARE_RUN_KEYS
  | SystemHive | OtherHive => None
  end.

(** *** [get_winlogon] *)

Definition WINLOGON_COMMON_VALUES : gmap string string :=
  list_to_map
    [ ("Userinit", "userinit.exe");
      ("VmApplet",
       "rundll32 shell32,Control_RunDLL " ++ DQUOTE ++ "sysdm.cpl" ++ DQUOTE);
      ("Shell", "Explorer.exe");
      ("TaskMan", "Taskmgr.exe");
      ("System", "lsass.exe") ].

(** [get_winlogon] returns tuples [(value, data, timestamp, default, pids)]. *)
Record WinlogonEntry := {
  wl_value : string;
  wl_data : string;
  wl_timestamp : Z;
  wl_default : string;
  wl_pids : list Z }.

(** [winlogon_key] is the key [reg_get_key] found. *)
Definition get_winlogon (dict_items : dict_order)
    (process_dict : gmap Z (Task * list Module)) (winlogon_key : RegistryKey)
  : list WinlogonEntry :=
  let valdict := dict_for_key winlogon_key in
  let timestamp := LastWriteTime winlogon_key in
  flat_map
    (fun '(value, data) =>
       match WINLOGON_COMMON_VALUES !! value with
       | Some default =>
           [ {| wl_value := value;
                wl_data := PyStr.replace NUL EmptyString data;
                wl_timestamp := timestamp;
                wl_default := default;
                wl_pids := find_pids_for_imagepath process_dict data |} ]
       | None => []
       end)
    (dict_items valdict).

(** *** [get_winlogon_registrations] *)

Definition WINLOGON_REGISTRATION_KNOWN_DLLS : list string :=
  [ "crypt32.dll"; "cryptnet.dll"; "cscdll.dll"; "dimsntfy.dll";
    "sclgntfy.dll"; "wlnotify.dll"; "wzcdlg.dll" ].

(** The test on a parsed registration. *)
Definition registration_shown (verbose : bool) (reg : NotifyEntry) : bool :=
  verbose ||
  (negb verbose &&
   negb (bool_decide (last_piece "\" (reg_dllname reg)
                      ∈ WINLOGON_REGISTRATION_KNOWN_DLLS))).

(** The loop over the subkeys of Notify, with the list built so far. *)
Fixpoint get_winlogon_registrations_loop (verbose : bool) (dict_items : dict_order)
    (process_dict : gmap Z (Task * list Module))
    (notify_subkeys : list RegistryKey) (winlogon_registrations : list NotifyEntry)
  : result (list NotifyEntry) :=
  match notify_subkeys with
  | [] => ret winlogon_registrations
  | subkey :: rest =>
      reg <-- parse_winlogon_registration_key dict_items process_dict subkey ;;
      get_winlogon_registrations_loop verbose dict_items process_dict rest
        (if registration_shown verbose reg
         then winlogon_registrations ++ [reg]
         else winlogon_registrations)
  end.

(** [notify_subkeys] is what [reg_get_all_subkeys] lists under Notify. *)
Definition get_winlogon_registrations (verbose : bool) (dict_items : dict_order)
    (process_dict : gmap Z (Task * list Module))
    (notify_subkeys : list RegistryKey) : result (list NotifyEntry) :=
  get_winlogon_registrations_loop verbose dict_items process_dict notify_subkeys [].

(** *** The search of the Run keys of one hive in [get_autoruns] *)

(** [hives]: from the name of a hive to the dictionary that maps a Run key
    and its last-write time to the entries found under it. *)
Abbreviation autoruns_dict := (gmap string (gmap (string * Z) (list RunEntry))).

(** The three lines under [if len(results) > 0]. *)
Definition store_results (hives : autoruns_dict) (name full_key : string)
    (lwt : Z) (results : list RunEntry) : autoruns_dict :=
  if (0 <? length results)%nat
  then <[name := <[(full_key, lwt) := results]> (default ∅ (hives !! name))]> hives
  else hives.

(** The loop over [keys] for a hive called [name] with root [root].
    [open_key] is [rawreg.open_key]; where it finds no key ([None]) the
    list of values is empty and so is [results]. *)
Definition search_run_keys (dict_items : dict_order)
    (process_dict : gmap Z (Task * list Module))
    (open_key : RegistryKey -> list string -> option RegistryKey)
    (name : string) (root : RegistryKey) (keys : list string)
    (hives : autoruns_dict) : autoruns_dict :=
  foldl (fun hives full_key =>
           match open_key root (PyStr.split "\" full_key) with
           | Some key =>
               store_results hives name full_key (LastWriteTime key)
                 (parse_autoruns_key dict_items process_dict key)
           | None => hives
           end)
        hives keys.

(** The branch of [get_autoruns] for a hive whose root was found. *)
Definition search_hive (dict_items : dict_order)
    (process_dict : gmap Z (Task * list Module))
    (open_key : RegistryKey -> list string -> option RegistryKey)
    (name : string) (root : RegistryKey) (hives : autoruns_dict) : autoruns_dict :=
  match run_keys (classify_hive name) with
  | Some keys => search_run_keys dict_items process_dict open_key name root keys hives
  | None => hives
  end.

(** Every list of entries a dictionary of hives holds has an entry. *)
Definition no_empty_results (hives : autoruns_dict) : Prop :=
  forall name h k results,
    hives !! name = Some h -> h !! k = Some results -> results <> [].

(** A way to open keys: the subkey of the root with the whole path as its
    name. *)
Definition open_by_path (root : RegistryKey) (path : list string)
  : option RegistryKey :=
  find (fun sub => bool_decide (PyStr.split "\" (Name sub) = path)) (subkeys root).

(** *** Words for the statements about the rest *)

(** The bytes of a string. *)
Fixpoint bytes (s : string) : list ascii :=
  match s with
  | EmptyString => []
  | String c s' => c :: bytes s'
  end.

(** The walk over the dictionary in the opposite order. *)
Definition reversed_items : dict_order := fun d => reverse (map_to_list d).

Definition winlogon_sample : RegistryKey :=
  registry_key "Winlogon" 7
    [ ("Shell", "explorer.exe"); ("shell", "evil.exe");
      ("Userinit", "C:\Windows\system32\userinit.exe,") ] [].

Definition ntuser_root : RegistryKey :=
  mkKey "ROOT" 1 []
    [ registry_key "Software\Microsoft\Windows\CurrentVersion\Run" 5
        [ ("MyApp", "C:\Apps\app.exe --flag"); ("Blank", EmptyString) ] [];
      registry_key "Software\Microsoft\Windows\CurrentVersion\RunOnce" 6
        [ ("Blank", EmptyString) ] [] ].

(** * Facts about the string methods *)

Lemma lower_ascii_upper_ascii (c : ascii) :
  PyStr.lower_ascii (PyStr.upper_ascii c) = PyStr.lower_ascii c.
Proof. destruct c as [[] [] [] [] [] [] [] []]; reflexivity. Qed.

Lemma is_upper_lower_ascii (c : ascii) :
  PyStr.is_upper (PyStr.lower_ascii c) = false.
Proof. destruct c as [[] [] [] [] [] [] [] []]; reflexivity. Qed.

Lemma lower_upper (s : string) : PyStr.lower (PyStr.upper s) = PyStr.lower s.
Proof.
  induction s as [|c s IH]; simpl; [reflexivity|].
  now rewrite lower_ascii_upper_ascii, IH.
Qed.

Lemma char_free_lower (s : string) :
  char_free PyStr.is_upper (PyStr.lower s) = true.
Proof.
  induction s as [|c s IH]; simpl; [reflexivity|].
  now rewrite is_upper_lower_ascii, IH.
Qed.

Lemma lower_fixed (s : string) :
  char_free PyStr.is_upper s = true -> PyStr.lower s = s.
Proof.
  induction s as [|c s IH]; simpl; [reflexivity|].
  intros [Hc Hs]%andb_prop. rewrite (IH Hs). unfold PyStr.lower_ascii.
  destruct (PyStr.is_upper c); [discriminate | reflexivity].
Qed.

(** Deleting occurrences brings in no byte that was not there. *)
Lemma char_free_replace_from (bad : ascii -> bool) (old : string) (s : string) :
  forall skip, char_free bad s = true ->
    char_free bad (PyStr.replace_from old EmptyString skip s) = true.
Proof.
  induction s as [|c s IH]; intros skip H; simpl; [reflexivity|].
  simpl in H. apply andb_prop in H as [Hc Hs].
  destruct skip as [|k]; [|now apply IH].
  destruct (PyStr.startswith old (String c s)); simpl.
  - now apply IH.
  - rewrite Hc. now apply IH.
Qed.

Lemma char_free_interleave_empty (bad : ascii -> bool) (s : string) :
  char_free bad (PyStr.interleave EmptyString s) = char_free bad s.
Proof. induction s as [|c s IH]; simpl; [reflexivity | now rewrite IH]. Qed.

Lemma char_free_replace (bad : ascii -> bool) (old s : string) :
  char_free bad s = true ->
  char_free bad (PyStr.replace old EmptyString s) = true.
Proof.
  destruct old as [|a old]; simpl.
  - now rewrite char_free_interleave_empty.
  - apply char_free_replace_from.
Qed.

(** Deleting a single byte leaves none of it. *)
Lemma char_free_replace_single (c : ascii) (s : string) :
  char_free (Ascii.eqb c) (PyStr.replace (String c EmptyString) EmptyString s) = true.
Proof.
  unfold PyStr.replace.
  induction s as [|b s IH]; simpl; [reflexivity|].
  destruct (ascii_dec c b) as [->|Hne]; simpl.
  - exact IH.
  - rewrite IH, andb_true_r. apply negb_true_iff, Ascii.eqb_neq, Hne.
Qed.

(** A string in which [old] does not occur is left as it is. *)
Lemma replace_from_absent (old new s : string) :
  PyStr.contains old s = false -> PyStr.replace_from old new O s = s.
Proof.
  induction s as [|c s IH]; simpl; [reflexivity|].
  intros [Hp Hs]%orb_false_elim. rewrite Hp. now rewrite (IH Hs).
Qed.

Lemma replace_absent (old new s : string) :
  old <> EmptyString ->
  PyStr.contains old s = false -> PyStr.replace old new s = s.
Proof.
  destruct old; [congruence|]. intros _. apply replace_from_absent.
Qed.

Lemma contains_single (c : ascii) (s : string) :
  PyStr.contains (String c EmptyString) s = negb (char_free (Ascii.eqb c) s).
Proof.
  induction s as [|b s IH]; simpl; [reflexivity|].
  rewrite IH. destruct (ascii_dec c b) as [->|Hne].
  - now rewrite Ascii.eqb_refl.
  - apply Ascii.eqb_neq in Hne. rewrite Hne. simpl. reflexivity.
Qed.

Lemma append_empty_l (s : string) : EmptyString ++ s = s.
Proof. reflexivity. Qed.

(** Deleting never makes a string longer, and makes it shorter when there
    is something to delete. *)
Lemma length_replace_from_le (old s : string) :
  forall skip,
    (String.length (PyStr.replace_from old EmptyString skip s) <= String.length s)%nat.
Proof.
  induction s as [|c s IH]; intros skip; simpl; [lia|].
  destruct skip as [|k]; [|specialize (IH k); lia].
  destruct (PyStr.startswith old (String c s)); simpl.
  - rewrite append_empty_l. specialize (IH (String.length old - 1)%nat); lia.
  - specialize (IH O); lia.
Qed.

Lemma length_replace_from_lt (old s : string) :
  old <> EmptyString ->
  PyStr.contains old s = true ->
  (String.length (PyStr.replace_from old EmptyString O s) < String.length s)%nat.
Proof.
  intros Hold.
  induction s as [|c s IH]; simpl.
  - destruct old; [congruence | discriminate].
  - destruct (PyStr.startswith old (String c s)) eqn:Hp; simpl.
    + intros _. rewrite append_empty_l.
      pose proof (length_replace_from_le old s (String.length old - 1)). lia.
    + intros H. specialize (IH H). lia.
Qed.

Lemma length_replace_le (old s : string) :
  old <> EmptyString ->
  (String.length (PyStr.replace old EmptyString s) <= String.length s)%nat.
Proof.
  destruct old; [congruence|]. intros _. apply length_replace_from_le.
Qed.

Lemma length_replace_lt (old s : string) :
  old <> EmptyString ->
  PyStr.contains old s = true ->
  (String.length (PyStr.replace old EmptyString s) < String.length s)%nat.
Proof.
  intros Hold H. destruct old as [|a old]; [congruence|].
  now apply length_replace_from_lt.
Qed.

(** * Facts about [sanitize_paths] *)

Lemma sanitize_paths_char_free (bad : ascii -> bool) (s : string) :
  char_free bad (PyStr.lower s) = true ->
  char_free bad (sanitize_paths s) = true.
Proof.
  intros H. unfold sanitize_paths.
  do 7 apply char_free_replace. exact H.
Qed.

Lemma sanitize_paths_no_upper (s : string) :
  char_free PyStr.is_upper (sanitize_paths s) = true.
Proof. apply sanitize_paths_char_free, char_free_lower. Qed.

Lemma sanitize_paths_no_nul (s : string) :
  char_free (Ascii.eqb "000") (sanitize_paths s) = true.
Proof.
  unfold sanitize_paths. do 2 apply char_free_replace.
  apply char_free_replace_single.
Qed.

Lemma sanitize_paths_no_dquote (s : string) :
  char_free (Ascii.eqb "034") (sanitize_paths s) = true.
Proof.
  unfold sanitize_paths. apply char_free_replace.
  apply char_free_replace_single.
Qed.

Lemma sanitize_paths_no_squote (s : string) :
  char_free (Ascii.eqb "039") (sanitize_paths s) = true.
Proof. unfold sanitize_paths. apply char_free_replace_single. Qed.

Lemma lower_sanitize_paths (s : string) :
  PyStr.lower (sanitize_paths s) = sanitize_paths s.
Proof. apply lower_fixed, sanitize_paths_no_upper. Qed.

Lemma lower_lower (s : string) : PyStr.lower (PyStr.lower s) = PyStr.lower s.
Proof. apply lower_fixed, char_free_lower. Qed.

Lemma sanitize_paths_lower (s : string) :
  sanitize_paths (PyStr.lower s) = sanitize_paths s.
Proof. unfold sanitize_paths. now rewrite lower_lower. Qed.

Lemma sanitize_paths_upper (s : string) :
  sanitize_paths (PyStr.upper s) = sanitize_paths s.
Proof. unfold sanitize_paths. now rewrite lower_upper. Qed.

Lemma sanitize_paths_fold (s : string) :
  sanitize_paths s =
  foldl (fun p tok => PyStr.replace tok EmptyString p) (PyStr.lower s) deleted_tokens.
Proof. reflexivity. Qed.

Lemma delete_all_length_le (toks : list string) :
  Forall (fun tok => tok <> EmptyString) toks ->
  forall x,
    (String.length (foldl (fun p tok => PyStr.replace tok EmptyString p) x toks)
     <= String.length x)%nat.
Proof.
  induction 1 as [|tok l Htok _ IH]; intros x; simpl; [lia|].
  etransitivity; [apply IH|]. now apply length_replace_le.
Qed.

(** A chain of deletions leaves [x] alone exactly when none of the tokens
    occurs in [x]. *)
Lemma delete_all_fixed (toks : list string) :
  Forall (fun tok => tok <> EmptyString) toks ->
  forall x,
    foldl (fun p tok => PyStr.replace tok EmptyString p) x toks = x <->
    Forall (fun tok => PyStr.contains tok x = false) toks.
Proof.
  induction 1 as [|tok l Htok Hl IH]; intros x; simpl.
  - split; [constructor | reflexivity].
  - destruct (PyStr.contains tok x) eqn:Hc.
    + split.
      * intros Heq. exfalso.
        pose proof (length_replace_lt tok x Htok Hc) as Hlt.
        pose proof (delete_all_length_le l Hl (PyStr.replace tok EmptyString x)) as Hle.
        rewrite Heq in Hle. lia.
      * intros H. inversion H; congruence.
    + rewrite (replace_absent tok EmptyString x Htok Hc), IH.
      split; [now constructor | intros H; now inversion H].
Qed.

Lemma deleted_tokens_nonempty :
  Forall (fun tok => tok <> EmptyString) deleted_tokens.
Proof. repeat constructor; discriminate. Qed.

Lemma sanitize_paths_fixed (x : string) :
  PyStr.lower x = x ->
  sanitize_paths x = x <->
  Forall (fun tok => PyStr.contains tok x = false) deleted_tokens.
Proof.
  intros Hx. rewrite sanitize_paths_fold, Hx.
  apply delete_all_fixed, deleted_tokens_nonempty.
Qed.

(** * The path normalizer *)

(** C3, amended: [sanitize_paths] does not see the case of its input, and a
    second pass changes nothing exactly when the first pass left none of the
    four placeholder tokens behind. *)
Theorem sanitize_paths_case_and_second_pass (s : string) :
  sanitize_paths (PyStr.upper s) = sanitize_paths s /\
  (sanitize_paths (sanitize_paths s) = sanitize_paths s <->
   existsb (fun tok => PyStr.contains tok (sanitize_paths s)) placeholder_tokens
   = false).
Proof.
  split; [apply sanitize_paths_upper|].
  rewrite (sanitize_paths_fixed _ (lower_sanitize_paths s)).
  unfold deleted_tokens, placeholder_tokens.
  pose proof (sanitize_paths_no_nul s) as Hn.
  pose proof (sanitize_paths_no_dquote s) as Hd.
  pose proof (sanitize_paths_no_squote s) as Hs.
  unfold NUL, DQUOTE, SQUOTE. simpl existsb. simpl app.
  rewrite !Forall_cons, Forall_nil, !contains_single, Hn, Hd, Hs.
  rewrite !orb_false_iff. simpl. tauto.
Qed.

(** C3 as stated fails: deleting the quote in the middle makes a token that
    only a second pass deletes. *)
Lemma sanitize_paths_not_idempotent :
  sanitize_paths (sanitize_paths "%win'dir%") <> sanitize_paths "%win'dir%".
Proof. vm_compute. discriminate. Qed.

(** C9: the result of [sanitize_paths] holds no upper-case ASCII letter, no
    NUL byte, no double quote and no single quote. *)
Theorem sanitize_paths_alphabet (s : string) :
  char_free PyStr.is_upper (sanitize_paths s) = true /\
  PyStr.contains NUL (sanitize_paths s) = false /\
  PyStr.contains DQUOTE (sanitize_paths s) = false /\
  PyStr.contains SQUOTE (sanitize_paths s) = false.
Proof.
  unfold NUL, DQUOTE, SQUOTE. rewrite !contains_single.
  rewrite sanitize_paths_no_upper, sanitize_paths_no_nul,
    sanitize_paths_no_dquote, sanitize_paths_no_squote.
  repeat split.
Qed.

(** * The PID correlator *)

Lemma elem_of_appends_of (module : string) (pid x : Z) (tm : Task * list Module) :
  x ∈ appends_of module pid tm <-> x = pid /\ process_matches module tm = true.
Proof.
  unfold appends_of, process_matches.
  rewrite elem_of_app, orb_true_iff, existsb_exists.
  rewrite (list_elem_of_In (flat_map _ _) x), in_flat_map.
  split.
  - intros [H | (dll & Hin & H)].
    + destruct (cmdline_hit module tm.1); [|by apply elem_of_nil in H].
      apply list_elem_of_singleton in H. auto.
    + destruct (dll_hit module dll) eqn:Hd; [|by destruct H].
      destruct H as [<- | []]. eauto.
  - intros [-> [H | (dll & Hin & H)]].
    + left. rewrite H. by apply list_elem_of_singleton.
    + right. exists dll. rewrite H. split; [done | by left].
Qed.

(** The pids returned are those of the processes of the inventory that
    match the sanitized path, provided that path is not empty. *)
Lemma elem_of_find_pids (process_dict : gmap Z (Task * list Module))
    (module : string) (p : Z) :
  p ∈ find_pids_for_imagepath process_dict module <->
  PyStr.truthy (sanitize_paths module) = true /\
  exists tm, process_dict !! p = Some tm /\
             process_matches (sanitize_paths module) tm = true.
Proof.
  unfold find_pids_for_imagepath.
  rewrite elem_of_elements, elem_of_list_to_set.
  destruct (PyStr.truthy (sanitize_paths module)).
  - rewrite list_elem_of_In, in_flat_map. split.
    + intros ([pid tm] & Hin & H). apply list_elem_of_In in H, Hin.
      apply elem_of_appends_of in H as [-> H].
      apply elem_of_map_to_list in Hin. eauto.
    + intros (_ & tm & Hl & H). exists (p, tm). split.
      * apply list_elem_of_In. by apply elem_of_map_to_list.
      * apply list_elem_of_In, elem_of_appends_of. done.
  - split; [intros H; by apply elem_of_nil in H | intros [? _]; done].
Qed.

Lemma find_pids_NoDup (process_dict : gmap Z (Task * list Module)) (module : string) :
  NoDup (find_pids_for_imagepath process_dict module).
Proof. apply NoDup_elements. Qed.

(** What the test on the command line compares, once the calls to
    [lower] that change nothing are dropped. *)
Lemma cmdline_hit_sanitized (module : string) (t : Task) (peb : PEB) :
  Peb t = Some peb ->
  cmdline_hit (sanitize_paths module) t =
  PyStr.contains (sanitize_paths module)
    (sanitize_paths (str_or (CommandLine peb) "[no cmdline]")).
Proof.
  intros H. unfold cmdline_hit. rewrite H.
  now rewrite lower_sanitize_paths, sanitize_paths_lower.
Qed.

Lemma get_dll_list_snoc (tasks : list (Task * list Module)) (tm : Task * list Module) :
  get_dll_list (tasks ++ [tm]) =
  match Peb (fst tm) with
  | Some _ => <[UniqueProcessId (fst tm) := tm]> (get_dll_list tasks)
  | None => get_dll_list tasks
  end.
Proof. unfold get_dll_list. now rewrite foldl_app. Qed.

(** C4, amended: on the empty path the result is empty, whatever the
    inventory; on every path the result has no pid twice; and a path that is
    [None] is not answered by the empty set but by [AttributeError]. *)
Theorem find_pids_empty_path_and_nodup
    (process_dict : gmap Z (Task * list Module)) (module : string) :
  find_pids_for_imagepath process_dict EmptyString = [] /\
  find_pids_for_imagepath_opt process_dict (Some EmptyString) = ret [] /\
  NoDup (find_pids_for_imagepath process_dict module) /\
  find_pids_for_imagepath_opt process_dict None = raise AttributeError.
Proof.
  assert (find_pids_for_imagepath process_dict EmptyString = []) as H.
  { unfold find_pids_for_imagepath. simpl. apply elements_empty. }
  split; [exact H|].
  split; [simpl; now rewrite H|].
  split; [apply find_pids_NoDup | reflexivity].
Qed.

(** C4 as stated fails for the absent path. *)
Lemma find_pids_none_raises :
  find_pids_for_imagepath_opt ∅ None <> ret [].
Proof. discriminate. Qed.

(** C8: putting one more process into the inventory, under a new pid or in
    place of an old one, loses no pid of the result when the sanitized
    command line of that process contains the sanitized path. *)
Theorem find_pids_monotone (process_dict : gmap Z (Task * list Module))
    (module : string) (task : Task) (peb : PEB) (mods : list Module) :
  Peb task = Some peb ->
  PyStr.contains (sanitize_paths module)
    (sanitize_paths (str_or (CommandLine peb) "[no cmdline]")) = true ->
  find_pids_for_imagepath process_dict module ⊆
  find_pids_for_imagepath
    (<[UniqueProcessId task := (task, mods)]> process_dict) module /\
  forall tasks,
    find_pids_for_imagepath (get_dll_list tasks) module ⊆
    find_pids_for_imagepath (get_dll_list (tasks ++ [(task, mods)])) module.
Proof.
  intros Hpeb Hcmd.
  assert (forall d, find_pids_for_imagepath d module ⊆
                    find_pids_for_imagepath
                      (<[UniqueProcessId task := (task, mods)]> d) module) as H.
  { intros d p. rewrite !elem_of_find_pids.
    intros (Hm & tm & Hl & Ht). split; [exact Hm|].
    destruct (decide (UniqueProcessId task = p)) as [<-|Hne].
    - exists (task, mods). rewrite lookup_insert_eq. split; [done|].
      unfold process_matches. simpl.
      now rewrite (cmdline_hit_sanitized _ _ _ Hpeb), Hcmd.
    - exists tm. now rewrite lookup_insert_ne. }
  split; [apply H|].
  intros tasks. rewrite get_dll_list_snoc. simpl. rewrite Hpeb. apply H.
Qed.

Lemma find_pids_monotone_witness :
  find_pids_for_imagepath {[ 880 := spooler_task ]} "LOCALSPL.DLL" ⊆
  find_pids_for_imagepath
    (<[ 1234 := ({| UniqueProcessId := 1234;
                    Peb := Some {| CommandLine := Some "rundll32 localspl.dll,Init" |} |},
                 []) ]> {[ 880 := spooler_task ]}) "LOCALSPL.DLL" /\
  forall tasks,
    find_pids_for_imagepath (get_dll_list tasks) "LOCALSPL.DLL" ⊆
    find_pids_for_imagepath
      (get_dll_list
         (tasks ++ [({| UniqueProcessId := 1234;
                        Peb := Some {| CommandLine := Some "rundll32 localspl.dll,Init" |} |},
                     [])])) "LOCALSPL.DLL".
Proof.
  apply (find_pids_monotone {[ 880 := spooler_task ]} "LOCALSPL.DLL"
           {| UniqueProcessId := 1234;
              Peb := Some {| CommandLine := Some "rundll32 localspl.dll,Init" |} |}
           {| CommandLine := Some "rundll32 localspl.dll,Init" |} []).
  - reflexivity.
  - vm_compute. reflexivity.
Defined.

(** * The Run keys *)

Lemma dict_items_singleton (dict_items : dict_order) (k v : string) :
  dict_order_ok dict_items -> dict_items {[ k := v ]} = [(k, v)].
Proof.
  intros Hok. apply Permutation_singleton_r.
  rewrite (Hok {[ k := v ]}), map_to_list_singleton. reflexivity.
Qed.

(** One process in the inventory, and it matches. *)
Lemma find_pids_single (pid : Z) (tm : Task * list Module) (module : string) :
  PyStr.truthy (sanitize_paths module) = true ->
  process_matches (sanitize_paths module) tm = true ->
  find_pids_for_imagepath {[ pid := tm ]} module = [pid].
Proof.
  intros Hm Ht. unfold find_pids_for_imagepath.
  rewrite Hm, map_to_list_singleton. simpl.
  rewrite <- (elements_singleton (C := gset Z) pid). f_equal.
  apply set_eq. intros x.
  rewrite elem_of_list_to_set, app_nil_r, elem_of_appends_of, elem_of_singleton.
  tauto.
Qed.

(** C1, amended: for a Run key whose only value is MyApp, with data
    [C:\Apps\app.exe --flag], and an inventory of the one process 1234 with
    that command line and any loaded modules, [parse_autoruns_key] returns
    one entry: the name MyApp, the data as it stands in the registry (not
    lower-cased), and the pids [1234]. *)
Theorem parse_autoruns_key_scenario (dict_items : dict_order)
    (key_name : string) (lwt : Z) (subs : list RegistryKey) (mods : list Module) :
  dict_order_ok dict_items ->
  parse_autoruns_key dict_items
    {[ 1234 := ({| UniqueProcessId := 1234;
                   Peb := Some {| CommandLine := Some "C:\Apps\app.exe --flag" |} |},
                mods) ]}
    (mkKey key_name lwt
       [ {| vName := "MyApp"; vData := "C:\Apps\app.exe --flag" |} ] subs)
  = [ {| run_value := "MyApp";
         run_data := "C:\Apps\app.exe --flag";
         run_pids := [1234] |} ].
Proof.
  intros Hok. unfold parse_autoruns_key, dict_for_key. simpl.
  rewrite insert_empty, (dict_items_singleton _ _ _ Hok). simpl.
  rewrite find_pids_single; [reflexivity | reflexivity | reflexivity].
Qed.

Lemma stdpp_items_ok : dict_order_ok stdpp_items.
Proof. intros d. reflexivity. Qed.

Lemma parse_autoruns_key_scenario_witness :
  parse_autoruns_key stdpp_items
    {[ 1234 := ({| UniqueProcessId := 1234;
                   Peb := Some {| CommandLine := Some "C:\Apps\app.exe --flag" |} |},
                []) ]}
    (mkKey "Run" 0
       [ {| vName := "MyApp"; vData := "C:\Apps\app.exe --flag" |} ] [])
  = [ {| run_value := "MyApp";
         run_data := "C:\Apps\app.exe --flag";
         run_pids := [1234] |} ].
Proof.
  apply (parse_autoruns_key_scenario stdpp_items "Run" 0 [] []).
  intros d. reflexivity.
Defined.

(** C1 as stated fails: the entry does not carry the lower-cased path. *)
Lemma parse_autoruns_key_keeps_case :
  map run_data
    (parse_autoruns_key stdpp_items
       {[ 1234 := ({| UniqueProcessId := 1234;
                      Peb := Some {| CommandLine := Some "C:\Apps\app.exe --flag" |} |},
                   []) ]}
       (mkKey "Run" 0
          [ {| vName := "MyApp"; vData := "C:\Apps\app.exe --flag" |} ] []))
  <> [ "c:\apps\app.exe --flag" ].
Proof. vm_compute. discriminate. Qed.

(** * The services *)

(** When [entry] is true there is a ServiceDll to look up. *)
Lemma resolve_svchost_entry (key : RegistryKey) (image_path : string)
    (parameters : option (gmap string string)) (timestamp : Z) (entry : option string) :
  resolve_svchost key image_path = (parameters, timestamp, entry) ->
  is_Some entry ->
  exists sub dll,
    find_parameters key = Some sub /\
    parameters = Some (dict_for_key sub) /\
    dict_for_key sub !! "ServiceDll" = Some dll.
Proof.
  unfold resolve_svchost. intros H [e ->].
  destruct (PyStr.contains _ image_path); [|congruence].
  destruct (find_parameters key) as [sub|]; [|congruence].
  destruct (dict_truthy (dict_for_key sub)); [|congruence].
  destruct (dict_for_key sub !! "ServiceDll") as [dll|] eqn:Hdll; [|congruence].
  exists sub, dll. split; [done|]. split; [congruence | done].
Qed.

(** A service that is returned has a Start of 0, 1 or 2. *)
Lemma parse_service_key_start (process_dict : gmap Z (Task * list Module))
    (key : RegistryKey) (r : ServiceEntry) :
  parse_service_key process_dict key = ret (Some r) ->
  exists n, get_int (dict_for_key key) "Start" = ret n /\ n ∈ [0; 1; 2].
Proof.
  unfold parse_service_key, bind.
  destruct (get_int (dict_for_key key) "Start") as [e|n]; [discriminate|].
  destruct (get_int (dict_for_key key) "Type") as [e|t]; [discriminate|].
  destruct (resolve_svchost key _) as [[parameters timestamp] entry].
  intros H. exists n. split; [reflexivity|].
  destruct (bool_decide (n ∈ [0; 1; 2])) eqn:Hn; [|discriminate].
  now apply bool_decide_eq_true in Hn.
Qed.

Lemma get_services_loop_app (verbose : bool)
    (process_dict : gmap Z (Task * list Module))
    (l1 l2 : list RegistryKey) (services : list ServiceEntry) :
  get_services_loop verbose process_dict (l1 ++ l2) services =
  (acc <-- get_services_loop verbose process_dict l1 services ;;
   get_services_loop verbose process_dict l2 acc).
Proof.
  revert services. induction l1 as [|k l1 IH]; intros services; simpl.
  - reflexivity.
  - destruct (parse_service_key process_dict k) as [e|service]; simpl.
    + reflexivity.
    + apply IH.
Qed.

(** Every service of the result was already in the list or is what
    [parse_service_key] returned for one of the keys. *)
Lemma get_services_loop_elem (verbose : bool)
    (process_dict : gmap Z (Task * list Module))
    (keys : list RegistryKey) (services out : list ServiceEntry) (r : ServiceEntry) :
  get_services_loop verbose process_dict keys services = ret out ->
  r ∈ out ->
  r ∈ services \/
  exists k, k ∈ keys /\ parse_service_key process_dict k = ret (Some r).
Proof.
  revert services. induction keys as [|k keys IH]; intros services; simpl.
  - intros [= ->] Hr. now left.
  - destruct (parse_service_key process_dict k) as [e|service] eqn:Hk; simpl;
      [discriminate|].
    intros H Hr. destruct (IH _ H Hr) as [Hin | (k' & Hk' & Hp)].
    + destruct service as [s|]; [|now left].
      destruct (service_shown verbose s); [|now left].
      apply elem_of_app in Hin as [Hin | Hin]; [now left|].
      apply list_elem_of_singleton in Hin as ->.
      right. exists k. split; [apply list_elem_of_here | exact Hk].
    + right. exists k'. split; [now apply list_elem_of_further | exact Hp].
Qed.

(** A key whose parse raises stops the walk over the services. *)
Lemma get_services_raises (verbose : bool)
    (process_dict : gmap Z (Task * list Module))
    (before after : list RegistryKey) (key : RegistryKey) (e : exn) :
  parse_service_key process_dict key = raise e ->
  exists e', get_services verbose process_dict (before ++ key :: after) = raise e'.
Proof.
  intros H. unfold get_services. rewrite get_services_loop_app.
  destruct (get_services_loop verbose process_dict before []) as [e'|acc]; simpl.
  - now exists e'.
  - rewrite H. now exists e.
Qed.

(** The scenario of the Spooler service: started automatically, sharing a
    process, matched by no process of an empty inventory. *)
Example spooler_scenario :
  parse_service_key ∅ spooler
  = ret (Some {| svc_name := "Spooler";
                 svc_timestamp := 10;
                 svc_display_name := "Unknown";
                 svc_startup := "Auto Start";
                 svc_type := "Share_Process";
                 svc_image_path := "C:\Windows\System32\spoolsv.exe";
                 svc_entry := None;
                 svc_pids := [] |}).
Proof. vm_compute. reflexivity. Qed.

Example int_of_string :
  PyInt.of_string " 2 " = ret 2 /\ PyInt.of_string "-1" = ret (-1) /\
  PyInt.of_string "0x2" = raise ValueError /\
  PyInt.of_string EmptyString = raise ValueError.
Proof. vm_compute. repeat split. Qed.

(** C5: a service key whose Start is 3 or 4 gives no record, whatever its
    other values, and leaves the list of services as it would be without
    it; and every service of the list comes from a key whose Start is 0, 1
    or 2. *)
Theorem manual_and_disabled_services_dropped
    (process_dict : gmap Z (Task * list Module)) (key : RegistryKey) (n : Z) :
  get_int (dict_for_key key) "Start" = ret n ->
  n = 3 \/ n = 4 ->
  (forall r, parse_service_key process_dict key <> ret (Some r)) /\
  (forall verbose before after out,
     get_services verbose process_dict (before ++ key :: after) = ret out ->
     get_services verbose process_dict (before ++ after) = ret out) /\
  (forall verbose keys out r,
     get_services verbose process_dict keys = ret out ->
     r ∈ out ->
     exists k m,
       k ∈ keys /\ parse_service_key process_dict k = ret (Some r) /\
       get_int (dict_for_key k) "Start" = ret m /\ m ∈ [0; 1; 2]).
Proof.
  intros Hstart Hn.
  assert (forall r, parse_service_key process_dict key <> ret (Some r)) as Hno.
  { intros r Hr. apply parse_service_key_start in Hr as (m & Hm & Hin).
    rewrite Hstart in Hm. injection Hm as <-.
    rewrite !elem_of_cons, elem_of_nil in Hin. lia. }
  split; [exact Hno|]. split.
  - intros verbose before after out. unfold get_services.
    rewrite !get_services_loop_app.
    destruct (get_services_loop verbose process_dict before []) as [e|acc];
      simpl; [done|].
    destruct (parse_service_key process_dict key) as [e|[r|]] eqn:Hk; simpl.
    + discriminate.
    + now destruct (Hno r).
    + done.
  - intros verbose keys out r Hout Hr.
    destruct (get_services_loop_elem _ _ _ _ _ _ Hout Hr) as [Hin | (k & Hk & Hp)].
    + now apply elem_of_nil in Hin.
    + destruct (parse_service_key_start _ _ _ Hp) as (m & Hm & Hin).
      exists k, m. done.
Qed.

Lemma manual_and_disabled_services_dropped_witness :
  (forall r, parse_service_key ∅ manual_service <> ret (Some r)) /\
  (forall verbose before after out,
     get_services verbose ∅ (before ++ manual_service :: after) = ret out ->
     get_services verbose ∅ (before ++ after) = ret out) /\
  (forall verbose keys out r,
     get_services verbose ∅ keys = ret out ->
     r ∈ out ->
     exists k m,
       k ∈ keys /\ parse_service_key ∅ k = ret (Some r) /\
       get_int (dict_for_key k) "Start" = ret m /\ m ∈ [0; 1; 2]).
Proof.
  apply (manual_and_disabled_services_dropped ∅ manual_service 3).
  - vm_compute. reflexivity.
  - left. reflexivity.
Defined.

(** The pids of a service are always computed: the lookup of ServiceDll
    that the true [entry] leads to finds it. *)
Lemma service_pids_ok (process_dict : gmap Z (Task * list Module))
    (key : RegistryKey) (image_path : string)
    (parameters : option (gmap string string)) (timestamp : Z) (entry : option string) :
  resolve_svchost key image_path = (parameters, timestamp, entry) ->
  exists pids,
    (if opt_truthy entry
     then find_pids_for_imagepath_opt process_dict
            (parameters ≫= (fun d => d !! "ServiceDll"))
     else ret (find_pids_for_imagepath process_dict image_path)) = ret pids.
Proof.
  intros H. destruct (opt_truthy entry) eqn:He; [|eauto].
  destruct entry as [e|]; [|discriminate].
  destruct (resolve_svchost_entry _ _ _ _ _ H) as (sub & dll & _ & -> & Hdll); [eauto|].
  simpl. rewrite Hdll. simpl. eauto.
Qed.

Lemma service_startup_auto (n : Z) :
  n ∈ [0; 1; 2] -> exists label, subscript service_startup n = ret label.
Proof.
  rewrite !elem_of_cons, elem_of_nil.
  intros [-> | [-> | [-> | []]]]; eexists; reflexivity.
Qed.

(** C2, amended: a missing Start or Type is read as -1 without error (a
    service without Start is then dropped as not auto-started; a missing
    Type is labelled Unknown); but a Start or Type whose string [int]
    rejects raises [ValueError] out of [parse_service_key], and
    [get_services] lets it through: it returns no list, and the services
    after that key are not parsed. *)
Theorem service_start_and_type_fields
    (process_dict : gmap Z (Task * list Module)) (key : RegistryKey) :
  let service_dict := dict_for_key key in
  (service_dict !! "Start" = None ->
   forall t, get_int service_dict "Type" = ret t ->
   parse_service_key process_dict key = ret None) /\
  (service_dict !! "Type" = None ->
   forall n, get_int service_dict "Start" = ret n -> n ∈ [0; 1; 2] ->
   exists r, parse_service_key process_dict key = ret (Some r) /\
             svc_type r = "Unknown") /\
  ((exists s, service_dict !! "Start" = Some s /\
              PyInt.of_string s = raise ValueError) \/
   (exists n s, get_int service_dict "Start" = ret n /\
                service_dict !! "Type" = Some s /\
                PyInt.of_string s = raise ValueError) ->
   parse_service_key process_dict key = raise ValueError /\
   forall verbose before after,
     exists e,
       get_services verbose process_dict (before ++ key :: after) = raise e).
Proof.
  intros service_dict. subst service_dict. split; [|split].
  - intros Hs t Ht. unfold parse_service_key, bind.
    unfold get_int at 1. rewrite Hs, Ht.
    destruct (resolve_svchost key _) as [[parameters timestamp] entry].
    reflexivity.
  - intros Hty n Hn Hin. unfold parse_service_key, bind.
    rewrite Hn. unfold get_int. rewrite Hty.
    destruct (resolve_svchost key _) as [[parameters timestamp] entry] eqn:Hr.
    unfold ret at 1 2. rewrite (bool_decide_eq_true_2 _ Hin).
    destruct (service_pids_ok process_dict _ _ _ _ _ Hr) as (pids & ->).
    destruct (service_startup_auto n Hin) as (label & ->).
    eexists. split; reflexivity.
  - intros Hbad.
    assert (parse_service_key process_dict key = raise ValueError) as H.
    { unfold parse_service_key, bind.
      destruct Hbad as [(s & Hs & Hv) | (n & s & Hn & Hs & Hv)].
      - unfold get_int at 1. now rewrite Hs, Hv.
      - rewrite Hn. unfold get_int. now rewrite Hs, Hv. }
    split; [exact H|]. intros verbose before after.
    now apply get_services_raises with (e := ValueError).
Qed.

Lemma service_start_and_type_fields_witness :
  parse_service_key ∅ no_start = ret None /\
  (exists r, parse_service_key ∅ no_type = ret (Some r) /\ svc_type r = "Unknown") /\
  (parse_service_key ∅ bad_start = raise ValueError /\
   forall verbose before after,
     exists e, get_services verbose ∅ (before ++ bad_start :: after) = raise e).
Proof.
  split; [|split].
  - apply (proj1 (service_start_and_type_fields ∅ no_start)) with (t := 16);
      reflexivity.
  - apply (proj1 (proj2 (service_start_and_type_fields ∅ no_type))) with (n := 2).
    + reflexivity.
    + reflexivity.
    + apply list_elem_of_further, list_elem_of_further, list_elem_of_here.
  - apply (proj2 (proj2 (service_start_and_type_fields ∅ bad_start))).
    left. exists "abc". split; reflexivity.
Defined.

(** C2 as stated fails: a Start that is no number raises, and the service
    after it is never parsed. *)
Lemma malformed_start_aborts_scan :
  parse_service_key ∅ bad_start = raise ValueError /\
  parse_service_key ∅ spooler <> raise ValueError /\
  get_services true ∅ [bad_start; spooler] = raise ValueError.
Proof. vm_compute. repeat split; discriminate. Qed.

Lemma dict_truthy_lookup (d : gmap string string) (k v : string) :
  d !! k = Some v -> dict_truthy d = true.
Proof.
  intros H. unfold dict_truthy. apply negb_true_iff, bool_decide_eq_false.
  intros ->. now rewrite lookup_empty in H.
Qed.

(** C7, amended: for a service whose ImagePath contains the svchost marker,
    the name, display name, startup kind, service kind and image path of the
    record are those of the service key alone, as in the record the key
    gives without its subkeys. The last-write time is that of the first
    subkey called Parameters as soon as there is one, whether or not it
    defines ServiceDll. The pids are those of the ServiceDll value when that
    subkey defines it and the entry made of it is not empty, and those of
    the image path otherwise. *)
Theorem svchost_service_fields (process_dict : gmap Z (Task * list Module))
    (key : RegistryKey) (r : ServiceEntry) :
  let image_path :=
    PyStr.replace NUL EmptyString
      (get_default (dict_for_key key) "ImagePath" "Unknown") in
  PyStr.contains "svchost.exe -k" image_path = true ->
  parse_service_key process_dict key = ret (Some r) ->
  (exists r0,
     parse_service_key process_dict (without_subkeys key) = ret (Some r0) /\
     svc_timestamp r0 = LastWriteTime key /\
     svc_pids r0 = find_pids_for_imagepath process_dict image_path /\
     svc_name r = svc_name r0 /\
     svc_display_name r = svc_display_name r0 /\
     svc_startup r = svc_startup r0 /\
     svc_type r = svc_type r0 /\
     svc_image_path r = svc_image_path r0) /\
  svc_image_path r = image_path /\
  match find_parameters key with
  | None =>
      svc_timestamp r = LastWriteTime key /\
      svc_entry r = None /\
      svc_pids r = find_pids_for_imagepath process_dict image_path
  | Some sub =>
      svc_timestamp r = LastWriteTime sub /\
      match dict_for_key sub !! "ServiceDll" with
      | None =>
          svc_entry r = None /\
          svc_pids r = find_pids_for_imagepath process_dict image_path
      | Some dll =>
          let entry :=
            PyStr.replace NUL EmptyString
              match dict_for_key sub !! "ServiceMain" with
              | Some main => if PyStr.truthy main then dll ++ " (" ++ main ++ ")" else dll
              | None => dll
              end in
          svc_entry r = Some entry /\
          svc_pids r =
          find_pids_for_imagepath process_dict
            (if PyStr.truthy entry then dll else image_path)
      end
  end.
Proof.
  intros image_path Hmark. subst image_path.
  unfold parse_service_key at 1 2, bind.
  change (dict_for_key (without_subkeys key)) with (dict_for_key key).
  destruct (get_int (dict_for_key key) "Start") as [e|n]; [discriminate|].
  destruct (get_int (dict_for_key key) "Type") as [e|t]; [discriminate|].
  set (image_path := PyStr.replace NUL EmptyString
                       (get_default (dict_for_key key) "ImagePath" "Unknown")) in *.
  assert (resolve_svchost (without_subkeys key) image_path
          = (None, LastWriteTime key, None)) as ->.
  { unfold resolve_svchost. now rewrite Hmark. }
  destruct (resolve_svchost key image_path) as [[parameters timestamp] entry] eqn:Hr.
  destruct (bool_decide (n ∈ [0; 1; 2])); [|discriminate].
  change (opt_truthy None) with false. cbv iota.
  unfold resolve_svchost in Hr. rewrite Hmark in Hr.
  destruct (subscript service_startup n) as [e|startup_name];
    [destruct (if opt_truthy entry then _ else _); discriminate|].
  destruct (subscript service_types t) as [e|type_name];
    [destruct (if opt_truthy entry then _ else _); discriminate|].
  destruct (find_parameters key) as [sub|].
  - destruct (dict_for_key sub !! "ServiceDll") as [dll|] eqn:Hdll.
    + rewrite (dict_truthy_lookup _ _ _ Hdll) in Hr.
      injection Hr as <- <- <-. cbn [opt_truthy mbind option_bind].
      rewrite Hdll.
      change (PyStr.replace_from NUL EmptyString 0)
        with (PyStr.replace NUL EmptyString).
      set (entry := PyStr.replace NUL EmptyString
                      match dict_for_key sub !! "ServiceMain" with
                      | Some m => _
                      | None => _
                      end).
      destruct (PyStr.truthy entry) eqn:He; cbn; intros [= <-]; cbn;
        (split; [eexists; repeat split | repeat split]).
    + assert (entry = None) as ->
          by (destruct (dict_truthy (dict_for_key sub)); congruence).
      injection Hr as <- <-. cbn. intros [= <-]. cbn.
      split; [eexists; repeat split | repeat split].
  - injection Hr as <- <- <-. cbn. intros [= <-]. cbn.
    split; [eexists; repeat split | repeat split].
Qed.

Lemma svchost_service_fields_witness :
  parse_service_key netsvcs_inventory netsvcs_service = ret (Some netsvcs_record) /\
  parse_service_key netsvcs_inventory (without_subkeys netsvcs_service)
  = ret (Some {| svc_name := "NetSvc";
                 svc_timestamp := 10;
                 svc_display_name := "Net service";
                 svc_startup := "Auto Start";
                 svc_type := "Share_Process";
                 svc_image_path := "%SystemRoot%\System32\svchost.exe -k netsvcs";
                 svc_entry := None;
                 svc_pids := [] |}) /\
  svc_timestamp netsvcs_record = 99 /\
  svc_entry netsvcs_record = Some "C:\Svc\net.dll (Main)" /\
  svc_pids netsvcs_record =
  find_pids_for_imagepath netsvcs_inventory "C:\Svc\net.dll".
Proof.
  assert (parse_service_key netsvcs_inventory netsvcs_service
          = ret (Some netsvcs_record)) as Hparse
      by (vm_compute; reflexivity).
  assert (PyStr.contains "svchost.exe -k"
            (PyStr.replace NUL EmptyString
               (get_default (dict_for_key netsvcs_service) "ImagePath" "Unknown"))
          = true) as Hmark
      by (vm_compute; reflexivity).
  pose proof (svchost_service_fields netsvcs_inventory netsvcs_service
                netsvcs_record Hmark Hparse) as (_ & _ & H).
  split; [exact Hparse|]. split; [vm_compute; reflexivity|].
  vm_compute in H. vm_compute. exact H.
Defined.

(** C7 as stated fails: a Parameters subkey that does not define ServiceDll
    still gives the record its last-write time. *)
Lemma parameters_without_servicedll_gives_timestamp :
  find_parameters
    (registry_key "NetSvc" 10 netsvcs_values
       [ registry_key "Parameters" 99 [ ("Other", "x") ] [] ])
  = Some (registry_key "Parameters" 99 [ ("Other", "x") ] []) /\
  dict_for_key (registry_key "Parameters" 99 [ ("Other", "x") ] []) !! "ServiceDll"
  = None /\
  parse_service_key netsvcs_inventory
    (registry_key "NetSvc" 10 netsvcs_values
       [ registry_key "Parameters" 99 [ ("Other", "x") ] [] ])
  = ret (Some {| svc_name := "NetSvc";
                 svc_timestamp := 99;
                 svc_display_name := "Net service";
                 svc_startup := "Auto Start";
                 svc_type := "Share_Process";
                 svc_image_path := "%SystemRoot%\System32\svchost.exe -k netsvcs";
                 svc_entry := None;
                 svc_pids := [] |}).
Proof. vm_compute. repeat split. Qed.

(** * AppInit_DLLs *)

Lemma split_nonempty (sep : ascii) (s : string) : PyStr.split sep s <> [].
Proof.
  destruct s as [|c s]; simpl; [discriminate|].
  destruct (ascii_dec c sep); [discriminate|].
  destruct (PyStr.split sep s); discriminate.
Qed.

(** Joining the pieces with the separator gives the string back. *)
Lemma join_split (sep : ascii) (s : string) :
  join (String sep EmptyString) (PyStr.split sep s) = s.
Proof.
  induction s as [|c s IH]; simpl; [reflexivity|].
  pose proof (split_nonempty sep s) as Hne.
  destruct (ascii_dec c sep) as [->|Hc].
  - destruct (PyStr.split sep s) as [|w ws]; [congruence|].
    cbn [join]. cbn [join] in IH. now rewrite IH.
  - destruct (PyStr.split sep s) as [|w ws]; [congruence|].
    destruct ws as [|w' ws]; cbn [join] in *; now rewrite <- IH.
Qed.

(** No piece holds the separator. *)
Lemma split_pieces (sep : ascii) (s : string) :
  Forall (fun w => PyStr.contains (String sep EmptyString) w = false)
         (PyStr.split sep s).
Proof.
  induction s as [|c s IH]; simpl.
  - repeat constructor.
  - destruct (ascii_dec c sep) as [->|Hc].
    + constructor; [reflexivity | exact IH].
    + destruct (PyStr.split sep s) as [|w ws]; [repeat constructor|].
      * simpl. destruct (ascii_dec sep c); [congruence | reflexivity].
      * inversion IH as [|? ? Hw Hws]; subst. constructor; [|exact Hws].
        simpl. destruct (ascii_dec sep c); [congruence|]. exact Hw.
Qed.

(** C6: the value is stripped of its NUL bytes and cut at every space, in
    order, so that the pieces joined by spaces give the stripped value
    back; the scenario of the two DLLs holds. The result is never the empty
    list, and never [None]: on the empty value it is the list of one empty
    string. *)
Theorem get_appinit_dlls_pieces (appinit_values : string) :
  get_appinit_dlls ("a.dll b.dll" ++ NUL) = Some ["a.dll"; "b.dll"] /\
  get_appinit_dlls EmptyString = Some [EmptyString] /\
  exists dlls,
    get_appinit_dlls appinit_values = Some dlls /\
    dlls <> [] /\
    join " " dlls = PyStr.replace NUL EmptyString appinit_values /\
    Forall (fun dll => PyStr.contains " " dll = false) dlls.
Proof.
  split; [reflexivity|]. split; [reflexivity|].
  unfold get_appinit_dlls.
  set (stripped := PyStr.replace NUL EmptyString appinit_values).
  pose proof (split_nonempty " " stripped) as Hne.
  exists (PyStr.split " " stripped). split; [|split; [|split]].
  - destruct (PyStr.split " " stripped); [congruence | reflexivity].
  - exact Hne.
  - apply join_split.
  - apply split_pieces.
Qed.

(** * The Winlogon notification packages *)

(** Every entry of the dictionary of a key comes from one of its values. *)
Lemma dict_for_key_lookup (key : RegistryKey) (name data : string) :
  dict_for_key key !! name = Some data ->
  exists v, v ∈ values key /\ vName v = name /\ vData v = data.
Proof.
  unfold dict_for_key.
  assert (forall vs (acc : gmap string string),
            foldl (fun valdict v => <[vName v := vData v]> valdict) acc vs !! name
            = Some data ->
            acc !! name = Some data \/
            exists v, v ∈ vs /\ vName v = name /\ vData v = data) as H.
  { induction vs as [|v vs IH]; intros acc; simpl; [now left|].
    intros Hl. destruct (IH _ Hl) as [Hacc | (v' & Hin & Hv')].
    - destruct (decide (vName v = name)) as [Heq|Hne].
      + rewrite Heq, lookup_insert_eq in Hacc. injection Hacc as Hd.
        right. exists v. split; [apply list_elem_of_here | done].
      + rewrite lookup_insert_ne in Hacc by done. now left.
    - right. exists v'. split; [now apply list_elem_of_further | done]. }
  intros Hl. destruct (H _ _ Hl) as [Hempty | Hv]; [|exact Hv].
  now rewrite lookup_empty in Hempty.
Qed.

Lemma dllname_loop_no_match (acc : option string) (items : list (string * string)) :
  Forall (fun kv => ~ names_dllname kv) items -> dllname_loop acc items = acc.
Proof.
  intros H. revert acc. induction H as [|[k d] items Hk _ IH]; intros acc; simpl.
  - reflexivity.
  - unfold names_dllname in Hk. simpl in Hk.
    rewrite (bool_decide_eq_false_2 _ Hk). apply IH.
Qed.

Lemma dllname_loop_some (acc : option string) (items : list (string * string))
    (data : string) :
  dllname_loop acc items = Some data ->
  acc = Some data \/ exists k, (k, data) ∈ items /\ PyStr.lower k = "dllname".
Proof.
  revert acc. induction items as [|[k d] items IH]; intros acc; simpl.
  - now left.
  - intros H. destruct (IH _ H) as [Hacc | (k' & Hin & Hk')].
    + destruct (bool_decide (PyStr.lower k = "dllname")) eqn:Hk.
      * injection Hacc as ->. apply bool_decide_eq_true in Hk.
        right. exists k. split; [apply list_elem_of_here | exact Hk].
      * now left.
    + right. exists k'. split; [now apply list_elem_of_further | exact Hk'].
Qed.

(** The last value of the walk whose name matches is the one kept. *)
Lemma find_dllname_last (before after : list (string * string)) (name data : string) :
  PyStr.lower name = "dllname" ->
  Forall (fun kv => ~ names_dllname kv) after ->
  find_dllname (before ++ (name, data) :: after) = Some data.
Proof.
  intros Hname Hafter. unfold find_dllname, dllname_loop.
  rewrite foldl_app. simpl.
  rewrite (bool_decide_eq_true_2 _ Hname).
  apply (dllname_loop_no_match (Some data) after Hafter).
Qed.

(** C10: [parse_winlogon_registration_key] returns a record only for a key
    one of whose values has a name that lower-cases to dllname; for a key
    with no such value it raises the error of the unbound local; and the
    record carries the data of the last such value the walk over the
    dictionary meets. *)
Theorem winlogon_registration_dllname (dict_items : dict_order)
    (process_dict : gmap Z (Task * list Module)) (key : RegistryKey) :
  dict_order_ok dict_items ->
  (forall r,
     parse_winlogon_registration_key dict_items process_dict key = ret r ->
     exists v, v ∈ values key /\ PyStr.lower (vName v) = "dllname") /\
  ((forall v, v ∈ values key -> PyStr.lower (vName v) <> "dllname") ->
   parse_winlogon_registration_key dict_items process_dict key
   = raise UnboundLocalError) /\
  (forall before name data after,
     dict_items (dict_for_key key) = (before ++ (name, data) :: after)%list ->
     PyStr.lower name = "dllname" ->
     Forall (fun kv => PyStr.lower (fst kv) <> "dllname") after ->
     exists r,
       parse_winlogon_registration_key dict_items process_dict key = ret r /\
       reg_dllname r = PyStr.replace NUL EmptyString data /\
       reg_pids r = find_pids_for_imagepath process_dict data).
Proof.
  intros Hok.
  assert (forall data,
            find_dllname (dict_items (dict_for_key key)) = Some data ->
            exists v, v ∈ values key /\ PyStr.lower (vName v) = "dllname") as Hfound.
  { intros data Hd. unfold find_dllname in Hd.
    apply dllname_loop_some in Hd as [Hd | (k & Hin & Hk)];
      [discriminate|].
    rewrite (Hok (dict_for_key key)) in Hin.
    apply elem_of_map_to_list in Hin.
    apply dict_for_key_lookup in Hin as (v & Hv & Hname & _).
    exists v. split; [exact Hv | now rewrite Hname]. }
  split; [|split].
  - intros r. unfold parse_winlogon_registration_key.
    destruct (find_dllname _) as [data|] eqn:Hd; [|discriminate].
    intros _. now apply (Hfound data).
  - intros Hnone. unfold parse_winlogon_registration_key.
    destruct (find_dllname _) as [data|] eqn:Hd; [|reflexivity].
    destruct (Hfound data eq_refl) as (v & Hv & Hname). now destruct (Hnone v Hv).
  - intros before name data after Hitems Hname Hafter.
    unfold parse_winlogon_registration_key.
    rewrite Hitems, (find_dllname_last before after name data Hname Hafter).
    eexists. split; [reflexivity|]. split; reflexivity.
Qed.

Lemma winlogon_registration_dllname_witness :
  (exists v, v ∈ values notify_key /\ PyStr.lower (vName v) = "dllname") /\
  parse_winlogon_registration_key stdpp_items ∅ notify_key_without_dll
  = raise UnboundLocalError /\
  (exists r,
     parse_winlogon_registration_key stdpp_items ∅ notify_key = ret r /\
     reg_dllname r = PyStr.replace NUL EmptyString "C:\b.dll" /\
     reg_pids r = find_pids_for_imagepath ∅ "C:\b.dll").
Proof.
  split; [|split].
  - apply (proj1 (winlogon_registration_dllname stdpp_items ∅ notify_key
                    stdpp_items_ok)
             {| reg_dllname := "C:\b.dll"; reg_events := [("Logon", "OnLogon")];
                reg_timestamp := 3; reg_pids := [] |}).
    vm_compute. reflexivity.
  - apply (proj1 (proj2 (winlogon_registration_dllname stdpp_items ∅
                           notify_key_without_dll stdpp_items_ok))).
    intros v Hv. apply list_elem_of_singleton in Hv as ->.
    vm_compute. discriminate.
  - apply (proj2 (proj2 (winlogon_registration_dllname stdpp_items ∅
                           notify_key stdpp_items_ok))
             [("Logon", "OnLogon"); ("DllName", "C:\a.dll")] "DLLNAME" "C:\b.dll" []).
    + vm_compute. reflexivity.
    + vm_compute. reflexivity.
    + constructor.
Defined.

(** * More on the string methods *)

Lemma append_cons (c : ascii) (s t : string) :
  String c s ++ t = String c (s ++ t).
Proof. reflexivity. Qed.

Lemma append_assoc_str (s t u : string) : (s ++ t) ++ u = s ++ (t ++ u).
Proof.
  induction s as [|c s IH]; [reflexivity|].
  now rewrite !append_cons, IH.
Qed.

Lemma append_empty_r (s : string) : s ++ EmptyString = s.
Proof.
  induction s as [|c s IH]; [reflexivity|]. now rewrite append_cons, IH.
Qed.

Lemma startswith_iff (p s : string) :
  PyStr.startswith p s = true <-> exists t, s = p ++ t.
Proof.
  revert s. induction p as [|a p IH]; intros s; simpl.
  - split; [intros _; now exists s | reflexivity].
  - destruct s as [|b s].
    + split; [discriminate | intros (t & Ht); discriminate].
    + destruct (ascii_dec a b) as [->|Hne].
      * rewrite IH. split; intros (t & Ht); exists t.
        -- now rewrite append_cons, Ht.
        -- rewrite append_cons in Ht. now injection Ht.
      * split; [discriminate|]. intros (t & Ht).
        rewrite append_cons in Ht. injection Ht as Hb _. congruence.
Qed.

(** [p in s] says that [s] is some bytes, then [p], then some bytes. *)
Lemma contains_iff (p s : string) :
  PyStr.contains p s = true <-> exists a b, s = a ++ p ++ b.
Proof.
  induction s as [|c s IH]; simpl.
  - rewrite orb_false_r, startswith_iff. split.
    + intros (t & Ht). now exists EmptyString, t.
    + intros (a & b & H). destruct a as [|x a]; [|discriminate].
      exists b. exact H.
  - rewrite orb_true_iff, IH, startswith_iff. split.
    + intros [(t & Ht) | (a & b & Hab)].
      * now exists EmptyString, t.
      * exists (String c a), b. now rewrite append_cons, Hab.
    + intros (a & b & H). destruct a as [|x a].
      * left. now exists b.
      * right. rewrite append_cons in H. injection H as _ H.
        now exists a, b.
Qed.

Lemma contains_trans (p q s : string) :
  PyStr.contains p q = true -> PyStr.contains q s = true ->
  PyStr.contains p s = true.
Proof.
  rewrite !contains_iff. intros (a & b & ->) (a' & b' & ->).
  exists (a' ++ a), (b ++ b'). now rewrite !append_assoc_str.
Qed.

Lemma length_bytes (s : string) : length (bytes s) = String.length s.
Proof. induction s as [|c s IH]; simpl; [reflexivity | now rewrite IH]. Qed.

Lemma length_lower (s : string) : String.length (PyStr.lower s) = String.length s.
Proof. induction s as [|c s IH]; simpl; [reflexivity | now rewrite IH]. Qed.

(** A deletion leaves a subsequence of the bytes. *)
Lemma replace_from_sublist (old s : string) :
  forall skip, bytes (PyStr.replace_from old EmptyString skip s) `sublist_of` bytes s.
Proof.
  induction s as [|c s IH]; intros skip; simpl; [constructor|].
  destruct skip as [|k]; [|apply sublist_cons, IH].
  destruct (PyStr.startswith old (String c s)).
  - rewrite append_empty_l. apply sublist_cons, IH.
  - simpl. apply sublist_skip, IH.
Qed.

Lemma replace_sublist (old s : string) :
  old <> EmptyString ->
  bytes (PyStr.replace old EmptyString s) `sublist_of` bytes s.
Proof.
  destruct old as [|a old]; [congruence|]. intros _. apply replace_from_sublist.
Qed.

(** X1: [sanitize_paths] only lower-cases and deletes: the bytes of its
    result are, in order, bytes of the lower-cased input, so the result is
    never longer than the input. *)
Theorem sanitize_paths_only_deletes (s : string) :
  bytes (sanitize_paths s) `sublist_of` bytes (PyStr.lower s) /\
  (String.length (sanitize_paths s) <= String.length s)%nat.
Proof.
  assert (bytes (sanitize_paths s) `sublist_of` bytes (PyStr.lower s)) as H.
  { unfold sanitize_paths.
    repeat (etransitivity; [apply replace_sublist; discriminate|]).
    reflexivity. }
  split; [exact H|].
  apply sublist_length in H. now rewrite !length_bytes, length_lower in H.
Qed.

(** * More on the PID correlator *)

Lemma dll_hit_sanitized (module : string) (dll : Module) :
  dll_hit (sanitize_paths module) dll =
  PyStr.contains (sanitize_paths module)
    (sanitize_paths (str_or (FullDllName dll) "[no dllname]")).
Proof.
  unfold dll_hit. now rewrite lower_sanitize_paths, sanitize_paths_lower.
Qed.

Lemma truthy_iff (s : string) : PyStr.truthy s = true <-> s <> EmptyString.
Proof. destruct s; simpl; split; congruence. Qed.

Lemma process_matches_iff (module : string) (task : Task) (mods : list Module) :
  process_matches (sanitize_paths module) (task, mods) = true <->
  (exists peb,
     Peb task = Some peb /\
     PyStr.contains (sanitize_paths module)
       (sanitize_paths (str_or (CommandLine peb) "[no cmdline]")) = true) \/
  (exists dll,
     dll ∈ mods /\
     PyStr.contains (sanitize_paths module)
       (sanitize_paths (str_or (FullDllName dll) "[no dllname]")) = true).
Proof.
  unfold process_matches. simpl. rewrite orb_true_iff, existsb_exists.
  split; intros [H | H]; [left | right | left | right].
  - unfold cmdline_hit in H. destruct (Peb task) as [peb|] eqn:Hp; [|discriminate].
    exists peb. split; [reflexivity|].
    now rewrite lower_sanitize_paths, sanitize_paths_lower in H.
  - destruct H as (dll & Hin & H). exists dll.
    rewrite list_elem_of_In. now rewrite dll_hit_sanitized in H.
  - destruct H as (peb & Hp & H). now rewrite (cmdline_hit_sanitized _ _ _ Hp).
  - destruct H as (dll & Hin & H). exists dll.
    rewrite <- list_elem_of_In. now rewrite dll_hit_sanitized.
Qed.

(** X2: a pid is returned exactly when the sanitized path is not empty and
    the inventory holds, under that pid, a process whose sanitized command
    line (or the placeholder for a missing one) or one of whose sanitized
    module names contains the sanitized path. In particular every pid
    returned is a pid of the inventory. *)
Theorem find_pids_for_imagepath_spec
    (process_dict : gmap Z (Task * list Module)) (module : string) (p : Z) :
  p ∈ find_pids_for_imagepath process_dict module <->
  sanitize_paths module <> EmptyString /\
  exists task mods,
    process_dict !! p = Some (task, mods) /\
    ((exists peb,
        Peb task = Some peb /\
        PyStr.contains (sanitize_paths module)
          (sanitize_paths (str_or (CommandLine peb) "[no cmdline]")) = true) \/
     (exists dll,
        dll ∈ mods /\
        PyStr.contains (sanitize_paths module)
          (sanitize_paths (str_or (FullDllName dll) "[no dllname]")) = true)).
Proof.
  rewrite elem_of_find_pids, truthy_iff. split.
  - intros (Hm & [task mods] & Hl & H). split; [exact Hm|].
    exists task, mods. split; [exact Hl|]. now apply process_matches_iff.
  - intros (Hm & task & mods & Hl & H). split; [exact Hm|].
    exists (task, mods). split; [exact Hl|]. now apply process_matches_iff.
Qed.

(** X3: a path whose sanitized form occurs inside the sanitized form of
    another matches every process the other matches: the shorter the
    fragment, the more pids. *)
Theorem find_pids_fragment (process_dict : gmap Z (Task * list Module))
    (fragment module : string) :
  sanitize_paths fragment <> EmptyString ->
  PyStr.contains (sanitize_paths fragment) (sanitize_paths module) = true ->
  find_pids_for_imagepath process_dict module ⊆
  find_pids_for_imagepath process_dict fragment.
Proof.
  intros Hne Hsub p. rewrite !elem_of_find_pids.
  intros (_ & [task mods] & Hl & H). split; [now apply truthy_iff|].
  exists (task, mods). split; [exact Hl|].
  apply process_matches_iff. apply process_matches_iff in H.
  destruct H as [(peb & Hp & H) | (dll & Hin & H)].
  - left. exists peb. split; [exact Hp|]. exact (contains_trans _ _ _ Hsub H).
  - right. exists dll. split; [exact Hin|]. exact (contains_trans _ _ _ Hsub H).
Qed.

Lemma find_pids_fragment_witness :
  find_pids_for_imagepath {[ 880 := spooler_task ]}
    "C:\Windows\System32\spoolsv.exe" ⊆
  find_pids_for_imagepath {[ 880 := spooler_task ]} "SPOOLSV".
Proof.
  apply (find_pids_fragment {[ 880 := spooler_task ]} "SPOOLSV"
           "C:\Windows\System32\spoolsv.exe").
  - vm_compute. discriminate.
  - vm_compute. reflexivity.
Defined.

(** * The inventory and the dictionary of a key *)

Lemma get_dll_list_lookup (tasks : list (Task * list Module)) (pid : Z) :
  get_dll_list tasks !! pid =
  last (filter (fun tm => UniqueProcessId (fst tm) = pid /\ is_Some (Peb (fst tm)))
               tasks).
Proof.
  induction tasks as [|tm tasks IH] using rev_ind; [reflexivity|].
  rewrite get_dll_list_snoc, filter_app, filter_cons, filter_nil.
  destruct (Peb tm.1) as [peb|] eqn:Hpeb.
  - destruct (decide (UniqueProcessId tm.1 = pid)) as [Heq|Hne].
    + rewrite decide_True by (split; [done | eauto]).
      now rewrite Heq, lookup_insert_eq, last_snoc.
    + rewrite decide_False by (intros [? _]; done).
      now rewrite lookup_insert_ne, app_nil_r.
  - rewrite decide_False by (intros [_ [? H]]; discriminate).
    now rewrite app_nil_r.
Qed.

Lemma last_filter_Some {A} (P : A -> Prop) `{forall x, Decision (P x)}
    (l : list A) (x : A) :
  last (filter P l) = Some x -> P x /\ x ∈ l.
Proof.
  intros Hl. assert (x ∈ filter P l) as Hin.
  { destruct (filter P l) as [|y l'] using rev_ind; [discriminate|].
    rewrite last_snoc in Hl. injection Hl as ->.
    apply elem_of_app. right. apply list_elem_of_singleton. reflexivity. }
  apply list_elem_of_filter in Hin. exact Hin.
Qed.

(** X4: [get_dll_list] keeps, for each pid, the last task of the list that
    has that pid and a PEB; so every process of the inventory has a PEB, is
    one of the tasks, and is filed under its own pid; and the pids
    [find_pids_for_imagepath] returns on that inventory are pids of tasks
    with a PEB. *)
Theorem get_dll_list_inventory (tasks : list (Task * list Module)) (pid : Z) :
  get_dll_list tasks !! pid =
  last (filter (fun tm => UniqueProcessId (fst tm) = pid /\ is_Some (Peb (fst tm)))
               tasks) /\
  (forall tm,
     get_dll_list tasks !! pid = Some tm ->
     UniqueProcessId (fst tm) = pid /\ is_Some (Peb (fst tm)) /\ tm ∈ tasks) /\
  (forall module,
     pid ∈ find_pids_for_imagepath (get_dll_list tasks) module ->
     exists tm, tm ∈ tasks /\ UniqueProcessId (fst tm) = pid /\
                is_Some (Peb (fst tm))).
Proof.
  assert (forall tm,
            get_dll_list tasks !! pid = Some tm ->
            UniqueProcessId (fst tm) = pid /\ is_Some (Peb (fst tm)) /\ tm ∈ tasks)
    as Hinv.
  { intros tm. rewrite get_dll_list_lookup. intros H.
    apply last_filter_Some in H. tauto. }
  split; [apply get_dll_list_lookup|]. split; [exact Hinv|].
  intros module Hp. apply elem_of_find_pids in Hp as (_ & tm & Hl & _).
  exists tm. specialize (Hinv tm Hl). tauto.
Qed.

Lemma foldl_insert_lookup (vs : list RegistryValue) (name : string) :
  foldl (fun (valdict : gmap string string) v => <[vName v := vData v]> valdict)
        ∅ vs !! name =
  vData <$> last (filter (fun v => vName v = name) vs).
Proof.
  induction vs as [|v vs IH] using rev_ind; [reflexivity|].
  rewrite foldl_app, filter_app, filter_cons, filter_nil. simpl.
  destruct (decide (vName v = name)) as [Heq|Hne].
  - now rewrite Heq, lookup_insert_eq, last_snoc.
  - now rewrite lookup_insert_ne, app_nil_r.
Qed.

(** X5: the dictionary of a key maps a name to the data of the last value
    of the key that has that name: a later value overwrites an earlier one
    of the same name, and a name no value has is not a key of the
    dictionary. *)
Theorem dict_for_key_last_value (key : RegistryKey) (name : string) :
  dict_for_key key !! name =
  vData <$> last (filter (fun v => vName v = name) (values key)) /\
  (dict_for_key key !! name = None <->
   forall v, v ∈ values key -> vName v <> name).
Proof.
  unfold dict_for_key. rewrite foldl_insert_lookup. split; [reflexivity|].
  rewrite fmap_None. split.
  - intros Hl v Hv Hname.
    assert (v ∈ filter (fun v => vName v = name) (values key)) as Hin
        by (apply list_elem_of_filter; done).
    destruct (filter _ (values key)) as [|y l] using rev_ind.
    + now apply elem_of_nil in Hin.
    + now rewrite last_snoc in Hl.
  - intros Hnone.
    destruct (last (filter _ (values key))) as [v|] eqn:Hl; [|reflexivity].
    apply last_filter_Some in Hl as [Hname Hin]. now destruct (Hnone v Hin).
Qed.

(** * More on the walks over a dictionary *)

Lemma elem_of_dict_items (dict_items : dict_order) (d : gmap string string)
    (k v : string) :
  dict_order_ok dict_items -> (k, v) ∈ dict_items d <-> d !! k = Some v.
Proof. intros Hok. now rewrite (Hok d), elem_of_map_to_list. Qed.

Lemma dict_items_NoDup_fst (dict_items : dict_order) (d : gmap string string) :
  dict_order_ok dict_items -> NoDup (dict_items d).*1.
Proof. intros Hok. rewrite (Hok d). apply NoDup_fst_map_to_list. Qed.

(** A walk that gives at most one entry per item, named after the item,
    gives entries whose names are names of the items, in their order. *)
Lemma flat_map_names_sublist {B} (f : string * string -> list B) (g : B -> string)
    (l : list (string * string)) :
  (forall kv, f kv = [] \/ exists b, f kv = [b] /\ g b = fst kv) ->
  map g (flat_map f l) `sublist_of` l.*1.
Proof.
  intros Hf. induction l as [|kv l IH]; simpl; [constructor|].
  rewrite map_app. destruct (Hf kv) as [-> | (b & -> & Hb)]; simpl.
  - now apply sublist_cons.
  - rewrite Hb. now apply sublist_skip.
Qed.

Lemma data_kept_iff (data : string) :
  negb (bool_decide (data ∈ [EmptyString; NUL])) = true <->
  data <> EmptyString /\ data <> NUL.
Proof.
  rewrite negb_true_iff, bool_decide_eq_false, !elem_of_cons, elem_of_nil.
  tauto.
Qed.

Lemma contains_nul_replace (s : string) :
  PyStr.contains NUL (PyStr.replace NUL EmptyString s) = false.
Proof.
  unfold NUL. rewrite contains_single. apply negb_false_iff.
  apply char_free_replace_single.
Qed.

(** X6: the entries of [parse_autoruns_key] are exactly those of the items
    of the dictionary of the key whose data is neither empty nor a lone NUL
    byte: the name, the data without its NUL bytes, and the pids found for
    the data as it stands. No two entries have the same name, and no entry's
    data holds a NUL byte. *)
Theorem parse_autoruns_key_entries (dict_items : dict_order)
    (process_dict : gmap Z (Task * list Module)) (key : RegistryKey) :
  dict_order_ok dict_items ->
  (forall e,
     e ∈ parse_autoruns_key dict_items process_dict key <->
     exists name data,
       dict_for_key key !! name = Some data /\
       data <> EmptyString /\ data <> NUL /\
       e = {| run_value := name;
              run_data := PyStr.replace NUL EmptyString data;
              run_pids := find_pids_for_imagepath process_dict data |}) /\
  NoDup (map run_value (parse_autoruns_key dict_items process_dict key)) /\
  Forall (fun e => PyStr.contains NUL (run_data e) = false)
         (parse_autoruns_key dict_items process_dict key).
Proof.
  intros Hok.
  assert (forall e,
     e ∈ parse_autoruns_key dict_items process_dict key <->
     exists name data,
       dict_for_key key !! name = Some data /\
       data <> EmptyString /\ data <> NUL /\
       e = {| run_value := name;
              run_data := PyStr.replace NUL EmptyString data;
              run_pids := find_pids_for_imagepath process_dict data |}) as Hspec.
  { intros e. unfold parse_autoruns_key.
    rewrite list_elem_of_In, in_flat_map. split.
    - intros ([name data] & Hin & He).
      apply list_elem_of_In, (elem_of_dict_items _ _ _ _ Hok) in Hin.
      destruct (negb _) eqn:Hk; [|destruct He].
      apply data_kept_iff in Hk as [H1 H2]. destruct He as [<- | []].
      now exists name, data.
    - intros (name & data & Hl & H1 & H2 & ->). exists (name, data). split.
      + now apply list_elem_of_In, (elem_of_dict_items _ _ _ _ Hok).
      + rewrite (proj2 (data_kept_iff data)) by done. now left. }
  split; [exact Hspec|]. split.
  - eapply sublist_NoDup; [apply (dict_items_NoDup_fst _ (dict_for_key key) Hok)|].
    apply flat_map_names_sublist. intros [name data]. simpl.
    destruct (negb _); [right; eauto | now left].
  - apply Forall_forall. intros e He.
    apply Hspec in He as (name & data & _ & _ & _ & ->). simpl.
    apply contains_nul_replace.
Qed.

Lemma parse_autoruns_key_entries_witness :
  (forall e,
     e ∈ parse_autoruns_key stdpp_items ∅ notify_key <->
     exists name data,
       dict_for_key notify_key !! name = Some data /\
       data <> EmptyString /\ data <> NUL /\
       e = {| run_value := name;
              run_data := PyStr.replace NUL EmptyString data;
              run_pids := find_pids_for_imagepath ∅ data |}) /\
  NoDup (map run_value (parse_autoruns_key stdpp_items ∅ notify_key)) /\
  Forall (fun e => PyStr.contains NUL (run_data e) = false)
         (parse_autoruns_key stdpp_items ∅ notify_key).
Proof.
  apply (parse_autoruns_key_entries stdpp_items ∅ notify_key).
  intros d. reflexivity.
Defined.

(** X7: the order in which a dictionary is walked decides only the order of
    the entries: two walks give the same entries, each as often, from
    [parse_autoruns_key] and from [get_winlogon]. *)
Theorem walk_order_permutes_entries (walk1 walk2 : dict_order)
    (process_dict : gmap Z (Task * list Module)) (key : RegistryKey) :
  dict_order_ok walk1 -> dict_order_ok walk2 ->
  parse_autoruns_key walk1 process_dict key ≡ₚ
  parse_autoruns_key walk2 process_dict key /\
  get_winlogon walk1 process_dict key ≡ₚ get_winlogon walk2 process_dict key.
Proof.
  intros H1 H2.
  assert (walk1 (dict_for_key key) ≡ₚ walk2 (dict_for_key key)) as Hp
      by now rewrite (H1 _), (H2 _).
  split; unfold parse_autoruns_key, get_winlogon;
    apply Permutation_flat_map, Hp.
Qed.

Lemma reversed_items_ok : dict_order_ok reversed_items.
Proof. intros d. unfold reversed_items. apply reverse_Permutation. Qed.

Lemma walk_order_permutes_entries_witness :
  parse_autoruns_key stdpp_items ∅ notify_key ≡ₚ
  parse_autoruns_key reversed_items ∅ notify_key /\
  get_winlogon stdpp_items ∅ notify_key ≡ₚ
  get_winlogon reversed_items ∅ notify_key.
Proof.
  apply (walk_order_permutes_entries stdpp_items reversed_items ∅ notify_key).
  - intros d. reflexivity.
  - exact reversed_items_ok.
Defined.

(** * More on the services *)

Lemma get_int_raises (d : gmap string string) (k : string) (e : exn) :
  get_int d k = raise e -> e = ValueError.
Proof.
  unfold get_int. destruct (d !! k) as [s|]; [|discriminate].
  unfold PyInt.of_string.
  destruct (match PyInt.lstrip s with
            | String "-" s' => (-1, s')
            | String "+" s' => (1, s')
            | _ => (1, PyInt.lstrip s)
            end) as [sign s'].
  destruct (PyInt.digits 0 false s') as [[n seen] rest].
  destruct (seen && negb (PyStr.truthy (PyInt.lstrip rest))); [discriminate|].
  now intros [= <-].
Qed.

(** What [parse_service_key] does, by the values of Start and Type. *)
Lemma parse_service_key_outcome (process_dict : gmap Z (Task * list Module))
    (key : RegistryKey) :
  match get_int (dict_for_key key) "Start", get_int (dict_for_key key) "Type" with
  | inl e, _ => parse_service_key process_dict key = inl e
  | inr _, inl e => parse_service_key process_dict key = inl e
  | inr n, inr t =>
      if bool_decide (n ∈ [0; 1; 2])
      then match service_types !! t with
           | None => parse_service_key process_dict key = raise KeyError
           | Some label =>
               exists r, parse_service_key process_dict key = ret (Some r) /\
                         svc_type r = label /\
                         service_startup !! n = Some (svc_startup r)
           end
      else parse_service_key process_dict key = ret None
  end.
Proof.
  unfold parse_service_key, bind.
  destruct (get_int (dict_for_key key) "Start") as [e|n]; [reflexivity|].
  destruct (get_int (dict_for_key key) "Type") as [e|t]; [reflexivity|].
  destruct (resolve_svchost key _) as [[parameters timestamp] entry] eqn:Hr.
  destruct (bool_decide (n ∈ [0; 1; 2])) eqn:Hn; [|reflexivity].
  apply bool_decide_eq_true in Hn.
  destruct (service_pids_ok process_dict _ _ _ _ _ Hr) as (pids & ->).
  destruct (service_startup_auto n Hn) as (label & Hl). rewrite Hl.
  unfold subscript in *.
  destruct (service_types !! t) as [type_name|]; [|reflexivity].
  eexists. split; [reflexivity|]. split; [reflexivity|]. simpl.
  destruct (service_startup !! n); [now injection Hl as -> | discriminate].
Qed.

(** X8: [parse_service_key] raises nothing but [ValueError] and
    [KeyError]. It raises [KeyError] exactly when Start is 0, 1 or 2 and
    Type is a number that [service_types] does not list, and [ValueError]
    exactly when Start, or with a good Start Type, is a string that [int]
    rejects. *)
Theorem parse_service_key_errors (process_dict : gmap Z (Task * list Module))
    (key : RegistryKey) :
  (forall e, parse_service_key process_dict key = raise e ->
             e = ValueError \/ e = KeyError) /\
  (parse_service_key process_dict key = raise KeyError <->
   exists n t,
     get_int (dict_for_key key) "Start" = ret n /\ n ∈ [0; 1; 2] /\
     get_int (dict_for_key key) "Type" = ret t /\ service_types !! t = None) /\
  (parse_service_key process_dict key = raise ValueError <->
   get_int (dict_for_key key) "Start" = raise ValueError \/
   exists n, get_int (dict_for_key key) "Start" = ret n /\
             get_int (dict_for_key key) "Type" = raise ValueError).
Proof.
  pose proof (parse_service_key_outcome process_dict key) as H.
  destruct (get_int (dict_for_key key) "Start") as [e1|n] eqn:Hs.
  { pose proof (get_int_raises _ _ _ Hs) as ->. rewrite H.
    split; [intros e [= <-]; now left|]. split.
    - split; [discriminate | intros (n & t & Hn & _); discriminate].
    - split; [now left | reflexivity]. }
  destruct (get_int (dict_for_key key) "Type") as [e2|t] eqn:Ht.
  { pose proof (get_int_raises _ _ _ Ht) as ->. rewrite H.
    split; [intros e [= <-]; now left|]. split.
    - split; [discriminate | intros (n' & t' & _ & _ & Ht' & _); discriminate].
    - split; [right; now exists n | reflexivity]. }
  destruct (bool_decide (n ∈ [0; 1; 2])) eqn:Hn.
  - apply bool_decide_eq_true in Hn.
    destruct (service_types !! t) as [label|] eqn:Hty.
    + destruct H as (r & -> & _). split; [discriminate|]. split.
      * split; [discriminate|].
        intros (n' & t' & [= <-] & _ & [= <-] & Hnone). congruence.
      * split; [discriminate|].
        intros [? | (n' & _ & ?)]; discriminate.
    + rewrite H. split; [intros e [= <-]; now right|]. split.
      * split; [intros _; now exists n, t | reflexivity].
      * split; [discriminate | intros [? | (n' & _ & ?)]; discriminate].
  - rewrite H. apply bool_decide_eq_false in Hn. split; [discriminate|]. split.
    + split; [discriminate|].
      intros (n' & t' & [= <-] & Hin & _). contradiction.
    + split; [discriminate | intros [? | (n' & _ & ?)]; discriminate].
Qed.

Lemma service_pids_source (process_dict : gmap Z (Task * list Module))
    (image_path : string) (parameters : option (gmap string string))
    (entry : option string) (pids : list Z) :
  (if opt_truthy entry
   then find_pids_for_imagepath_opt process_dict
          (parameters ≫= (fun d => d !! "ServiceDll"))
   else ret (find_pids_for_imagepath process_dict image_path)) = ret pids ->
  exists module, pids = find_pids_for_imagepath process_dict module.
Proof.
  destruct (opt_truthy entry).
  - destruct (parameters ≫= _) as [m|]; [|discriminate].
    intros [= <-]. now exists m.
  - intros [= <-]. now exists image_path.
Qed.

Lemma resolve_svchost_entry_nul (key : RegistryKey) (image_path : string)
    (parameters : option (gmap string string)) (timestamp : Z) (entry e : string) :
  resolve_svchost key image_path = (parameters, timestamp, Some e) ->
  PyStr.contains NUL e = false.
Proof.
  unfold resolve_svchost.
  destruct (PyStr.contains _ image_path); [|discriminate].
  destruct (find_parameters key) as [sub|]; [|discriminate].
  destruct (dict_truthy (dict_for_key sub)); [|discriminate].
  destruct (dict_for_key sub !! "ServiceDll") as [dll|]; [|discriminate].
  intros [= _ _ <-]. apply contains_nul_replace.
Qed.

(** X10: every record [parse_service_key] returns carries the name of the
    key; a display name, an image path and a loaded entry without NUL bytes;
    one of the three automatic startup labels; a label of [service_types];
    and pids that are pairwise different and belong to the inventory. *)
Theorem service_record_invariants (process_dict : gmap Z (Task * list Module))
    (key : RegistryKey) (r : ServiceEntry) :
  parse_service_key process_dict key = ret (Some r) ->
  svc_name r = Name key /\
  PyStr.contains NUL (svc_display_name r) = false /\
  PyStr.contains NUL (svc_image_path r) = false /\
  (forall e, svc_entry r = Some e -> PyStr.contains NUL e = false) /\
  svc_startup r ∈ ["Boot Start"; "System Start"; "Auto Start"] /\
  (exists t, service_types !! t = Some (svc_type r)) /\
  NoDup (svc_pids r) /\
  (forall p, p ∈ svc_pids r -> is_Some (process_dict !! p)).
Proof.
  unfold parse_service_key, bind.
  destruct (get_int (dict_for_key key) "Start") as [e|n]; [discriminate|].
  destruct (get_int (dict_for_key key) "Type") as [e|t]; [discriminate|].
  destruct (resolve_svchost key _) as [[parameters timestamp] entry] eqn:Hr.
  destruct (bool_decide (n ∈ [0; 1; 2])) eqn:Hn; [|discriminate].
  apply bool_decide_eq_true in Hn.
  destruct (if opt_truthy entry then _ else _) as [e|pids] eqn:Hp; [discriminate|].
  apply service_pids_source in Hp as (module & ->).
  unfold subscript.
  destruct (service_startup !! n) as [startup_name|] eqn:Hs; [|discriminate].
  destruct (service_types !! t) as [type_name|] eqn:Ht; [|discriminate].
  intros [= <-]. simpl.
  split; [reflexivity|]. split; [apply contains_nul_replace|].
  split; [apply contains_nul_replace|]. split.
  { intros e ->. now apply (resolve_svchost_entry_nul _ _ _ _ e e Hr). }
  split.
  { rewrite !elem_of_cons, elem_of_nil in Hn.
    destruct Hn as [-> | [-> | [-> | []]]]; injection Hs as <-;
      rewrite !elem_of_cons; auto. }
  split; [now exists t|]. split; [apply find_pids_NoDup|].
  intros p Hin. apply elem_of_find_pids in Hin as (_ & tm & Hl & _). eauto.
Qed.

Lemma service_record_invariants_witness :
  svc_name netsvcs_record = Name netsvcs_service /\
  PyStr.contains NUL (svc_display_name netsvcs_record) = false /\
  PyStr.contains NUL (svc_image_path netsvcs_record) = false /\
  (forall e, svc_entry netsvcs_record = Some e -> PyStr.contains NUL e = false) /\
  svc_startup netsvcs_record ∈ ["Boot Start"; "System Start"; "Auto Start"] /\
  (exists t, service_types !! t = Some (svc_type netsvcs_record)) /\
  NoDup (svc_pids netsvcs_record) /\
  (forall p, p ∈ svc_pids netsvcs_record -> is_Some (netsvcs_inventory !! p)).
Proof.
  apply (service_record_invariants netsvcs_inventory netsvcs_service).
  vm_compute. reflexivity.
Defined.

(** X9: when the image path of a service does not contain the svchost
    marker, its subkeys are never consulted: any other subkeys give the same
    result, and a record returned carries the last-write time of the
    service key, no loaded entry and the pids of the image path. *)
Theorem service_without_marker_ignores_subkeys
    (process_dict : gmap Z (Task * list Module))
    (name : string) (lwt : Z) (vals : list RegistryValue)
    (subs subs' : list RegistryKey) :
  PyStr.contains "svchost.exe -k"
    (PyStr.replace NUL EmptyString
       (get_default (dict_for_key (mkKey name lwt vals subs)) "ImagePath" "Unknown"))
  = false ->
  parse_service_key process_dict (mkKey name lwt vals subs) =
  parse_service_key process_dict (mkKey name lwt vals subs') /\
  forall r,
    parse_service_key process_dict (mkKey name lwt vals subs) = ret (Some r) ->
    svc_timestamp r = lwt /\ svc_entry r = None /\
    svc_pids r =
    find_pids_for_imagepath process_dict
      (PyStr.replace NUL EmptyString
         (get_default (dict_for_key (mkKey name lwt vals subs)) "ImagePath" "Unknown")).
Proof.
  intros Hmark. unfold parse_service_key, bind.
  change (dict_for_key (mkKey name lwt vals subs'))
    with (dict_for_key (mkKey name lwt vals subs)).
  set (d := dict_for_key (mkKey name lwt vals subs)) in *.
  destruct (get_int d "Start") as [e|n]; [split; [reflexivity | discriminate]|].
  destruct (get_int d "Type") as [e|t]; [split; [reflexivity | discriminate]|].
  unfold resolve_svchost. rewrite Hmark. simpl.
  split; [reflexivity|].
  destruct (bool_decide (n ∈ [0; 1; 2])); [|discriminate].
  destruct (subscript service_startup n); [discriminate|].
  destruct (subscript service_types t); [discriminate|].
  intros r [= <-]. simpl. repeat split.
Qed.

Lemma service_without_marker_ignores_subkeys_witness :
  parse_service_key ∅ spooler =
  parse_service_key ∅
    (mkKey "Spooler" 10 (values spooler) (subkeys netsvcs_service)) /\
  forall r,
    parse_service_key ∅ spooler = ret (Some r) ->
    svc_timestamp r = 10 /\ svc_entry r = None /\
    svc_pids r =
    find_pids_for_imagepath ∅
      (PyStr.replace NUL EmptyString
         (get_default (dict_for_key spooler) "ImagePath" "Unknown")).
Proof.
  apply (service_without_marker_ignores_subkeys ∅ "Spooler" 10 (values spooler)
           [] (subkeys netsvcs_service)).
  vm_compute. reflexivity.
Defined.

Lemma get_services_loop_filter (process_dict : gmap Z (Task * list Module))
    (keys : list RegistryKey) (services : list ServiceEntry) :
  get_services_loop false process_dict keys
    (List.filter (service_shown false) services) =
  (out <-- get_services_loop true process_dict keys services ;;
   ret (List.filter (service_shown false) out)).
Proof.
  revert services. induction keys as [|k keys IH]; intros services.
  - reflexivity.
  - cbn [get_services_loop].
    destruct (parse_service_key process_dict k) as [e|[s|]].
    + reflexivity.
    + unfold bind at 1 3. change (service_shown true s) with true. cbv iota.
      rewrite <- IH. f_equal. rewrite List.filter_app. cbn [List.filter].
      destruct (service_shown false s); [reflexivity | now rewrite app_nil_r].
    + apply IH.
Qed.

(** X11: the list of services without the verbose option is the verbose
    list with the services taken out whose image path contains system32 in
    any case or is Unknown: the same error when the verbose walk raises,
    the same order otherwise, and none of those services left. *)
Theorem get_services_verbose_filter (process_dict : gmap Z (Task * list Module))
    (keys : list RegistryKey) :
  get_services false process_dict keys =
  (out <-- get_services true process_dict keys ;;
   ret (List.filter (service_shown false) out)) /\
  forall out,
    get_services false process_dict keys = ret out ->
    Forall (fun s =>
              PyStr.contains "system32" (PyStr.lower (svc_image_path s)) = false /\
              svc_image_path s <> "Unknown") out.
Proof.
  assert (get_services false process_dict keys =
          (out <-- get_services true process_dict keys ;;
           ret (List.filter (service_shown false) out))) as H
      by apply (get_services_loop_filter process_dict keys []).
  split; [exact H|]. intros out. rewrite H. unfold bind.
  destruct (get_services true process_dict keys) as [e|all]; [discriminate|].
  intros [= <-]. apply Forall_forall. intros s Hs.
  apply list_elem_of_In, List.filter_In in Hs as [_ Hs].
  unfold service_shown in Hs. simpl in Hs.
  apply andb_prop in Hs as [H1 H2].
  apply negb_true_iff in H1. apply negb_true_iff, bool_decide_eq_false in H2.
  now split.
Qed.

(** * The Winlogon values *)

Lemma winlogon_common_names (value default : string) :
  WINLOGON_COMMON_VALUES !! value = Some default ->
  value ∈ ["Userinit"; "VmApplet"; "Shell"; "TaskMan"; "System"].
Proof.
  intros H. apply elem_of_list_to_map_2 in H.
  rewrite !elem_of_cons, elem_of_nil in H. rewrite !elem_of_cons.
  destruct H as [H | [H | [H | [H | [H | []]]]]]; injection H as -> _; auto 10.
Qed.

(** X12: the entries of [get_winlogon] are exactly those of the values of
    the key whose name is, letter for letter, one of Userinit, VmApplet,
    Shell, TaskMan and System: each with the default of its name from the
    table, the last-write time of the key and data without NUL bytes. No
    name comes twice, so there are at most five entries. *)
Theorem get_winlogon_entries (dict_items : dict_order)
    (process_dict : gmap Z (Task * list Module)) (key : RegistryKey) :
  dict_order_ok dict_items ->
  (forall e,
     e ∈ get_winlogon dict_items process_dict key <->
     exists value data default,
       dict_for_key key !! value = Some data /\
       WINLOGON_COMMON_VALUES !! value = Some default /\
       e = {| wl_value := value;
              wl_data := PyStr.replace NUL EmptyString data;
              wl_timestamp := LastWriteTime key;
              wl_default := default;
              wl_pids := find_pids_for_imagepath process_dict data |}) /\
  NoDup (map wl_value (get_winlogon dict_items process_dict key)) /\
  (length (get_winlogon dict_items process_dict key) <= 5)%nat /\
  Forall (fun e => wl_value e ∈ ["Userinit"; "VmApplet"; "Shell"; "TaskMan"; "System"] /\
                   PyStr.contains NUL (wl_data e) = false)
         (get_winlogon dict_items process_dict key).
Proof.
  intros Hok.
  assert (forall e,
     e ∈ get_winlogon dict_items process_dict key <->
     exists value data default,
       dict_for_key key !! value = Some data /\
       WINLOGON_COMMON_VALUES !! value = Some default /\
       e = {| wl_value := value;
              wl_data := PyStr.replace NUL EmptyString data;
              wl_timestamp := LastWriteTime key;
              wl_default := default;
              wl_pids := find_pids_for_imagepath process_dict data |}) as Hspec.
  { intros e. unfold get_winlogon.
    rewrite list_elem_of_In, in_flat_map. split.
    - intros ([value data] & Hin & He).
      apply list_elem_of_In, (elem_of_dict_items _ _ _ _ Hok) in Hin.
      destruct (WINLOGON_COMMON_VALUES !! value) as [default|] eqn:Hd;
        [|destruct He].
      destruct He as [<- | []]. now exists value, data, default.
    - intros (value & data & default & Hl & Hd & ->). exists (value, data). split.
      + now apply list_elem_of_In, (elem_of_dict_items _ _ _ _ Hok).
      + rewrite Hd. now left. }
  assert (NoDup (map wl_value (get_winlogon dict_items process_dict key))) as Hnd.
  { eapply sublist_NoDup; [apply (dict_items_NoDup_fst _ (dict_for_key key) Hok)|].
    apply flat_map_names_sublist. intros [value data]. simpl.
    destruct (WINLOGON_COMMON_VALUES !! value); [right; eauto | now left]. }
  assert (Forall (fun e => wl_value e ∈ ["Userinit"; "VmApplet"; "Shell"; "TaskMan"; "System"] /\
                           PyStr.contains NUL (wl_data e) = false)
                 (get_winlogon dict_items process_dict key)) as Hall.
  { apply Forall_forall. intros e He.
    apply Hspec in He as (value & data & default & _ & Hd & ->). simpl. split.
    - exact (winlogon_common_names _ _ Hd).
    - apply contains_nul_replace. }
  split; [exact Hspec|]. split; [exact Hnd|]. split; [|exact Hall].
  rewrite <- (length_map wl_value).
  change 5%nat with (length ["Userinit"; "VmApplet"; "Shell"; "TaskMan"; "System"]).
  apply submseteq_length, NoDup_submseteq; [exact Hnd|].
  intros name Hname. apply list_elem_of_fmap in Hname as (e & -> & He).
  rewrite Forall_forall in Hall. now destruct (Hall e He).
Qed.

Lemma get_winlogon_entries_witness :
  (forall e,
     e ∈ get_winlogon stdpp_items ∅ winlogon_sample <->
     exists value data default,
       dict_for_key winlogon_sample !! value = Some data /\
       WINLOGON_COMMON_VALUES !! value = Some default /\
       e = {| wl_value := value;
              wl_data := PyStr.replace NUL EmptyString data;
              wl_timestamp := LastWriteTime winlogon_sample;
              wl_default := default;
              wl_pids := find_pids_for_imagepath ∅ data |}) /\
  NoDup (map wl_value (get_winlogon stdpp_items ∅ winlogon_sample)) /\
  (length (get_winlogon stdpp_items ∅ winlogon_sample) <= 5)%nat /\
  Forall (fun e => wl_value e ∈ ["Userinit"; "VmApplet"; "Shell"; "TaskMan"; "System"] /\
                   PyStr.contains NUL (wl_data e) = false)
         (get_winlogon stdpp_items ∅ winlogon_sample).
Proof.
  apply (get_winlogon_entries stdpp_items ∅ winlogon_sample).
  intros d. reflexivity.
Defined.

(** * The list of the notification packages *)

Lemma dllname_loop_is_Some (acc : option string) (items : list (string * string)) :
  is_Some (dllname_loop acc items) <->
  is_Some acc \/ Exists names_dllname items.
Proof.
  revert acc. induction items as [|[k d] items IH]; intros acc; simpl.
  - rewrite Exists_nil. tauto.
  - rewrite IH, Exists_cons. unfold names_dllname at 1. simpl.
    destruct (bool_decide (PyStr.lower k = "dllname")) eqn:Hk.
    + apply bool_decide_eq_true in Hk. split; [tauto | intros _; left; eauto].
    + apply bool_decide_eq_false in Hk. tauto.
Qed.

(** The parser raises exactly on a key without a dllname value, and raises
    nothing but the error of the unbound local. *)
Lemma parse_winlogon_registration_key_raises (dict_items : dict_order)
    (process_dict : gmap Z (Task * list Module)) (key : RegistryKey) :
  dict_order_ok dict_items ->
  (forall e, parse_winlogon_registration_key dict_items process_dict key = raise e ->
             e = UnboundLocalError) /\
  ((exists e, parse_winlogon_registration_key dict_items process_dict key = raise e) <->
   forall v, v ∈ values key -> PyStr.lower (vName v) <> "dllname").
Proof.
  intros Hok. unfold parse_winlogon_registration_key.
  pose proof (dllname_loop_is_Some None (dict_items (dict_for_key key))) as Hs.
  fold (find_dllname (dict_items (dict_for_key key))) in Hs.
  destruct (find_dllname (dict_items (dict_for_key key))) as [data|] eqn:Hd.
  - split; [discriminate|]. split; [intros (e & ?); discriminate|].
    intros Hnone. exfalso.
    destruct (proj1 Hs) as [[? ?] | Hex]; [eauto | discriminate |].
    apply Exists_exists in Hex as ([k d] & Hin & Hk).
    apply (elem_of_dict_items _ _ _ _ Hok), dict_for_key_lookup in Hin
      as (v & Hv & Hname & _).
    apply (Hnone v Hv). now rewrite Hname.
  - split; [now intros e [= <-]|]. split; [|intros _; now exists UnboundLocalError].
    intros _ v Hv Hname.
    assert (is_Some (dict_for_key key !! vName v)) as [d Hl].
    { unfold dict_for_key. rewrite foldl_insert_lookup.
      destruct (last (filter (fun v' => vName v' = vName v) (values key)))
        as [v'|] eqn:Hlast; [eauto|].
      assert (v ∈ filter (fun v' => vName v' = vName v) (values key)) as Hin
          by (apply list_elem_of_filter; done).
      destruct (filter _ (values key)) as [|y l] using rev_ind.
      - now apply elem_of_nil in Hin.
      - now rewrite last_snoc in Hlast. }
    apply (elem_of_dict_items dict_items _ _ _ Hok) in Hl.
    destruct (proj2 Hs) as [? Hsome]; [|discriminate].
    right. apply Exists_exists. exists (vName v, d). split; [exact Hl | exact Hname].
Qed.

Lemma get_winlogon_registrations_loop_raises (verbose : bool) (dict_items : dict_order)
    (process_dict : gmap Z (Task * list Module))
    (subkeys : list RegistryKey) (regs : list NotifyEntry) :
  dict_order_ok dict_items ->
  (forall e,
     get_winlogon_registrations_loop verbose dict_items process_dict subkeys regs
     = raise e -> e = UnboundLocalError) /\
  ((exists e,
      get_winlogon_registrations_loop verbose dict_items process_dict subkeys regs
      = raise e) <->
   exists k, k ∈ subkeys /\
             forall v, v ∈ values k -> PyStr.lower (vName v) <> "dllname").
Proof.
  intros Hok. revert regs. induction subkeys as [|k subkeys IH]; intros regs.
  - split; [discriminate|]. split; [intros (e & ?); discriminate|].
    intros (k & Hk & _). now apply elem_of_nil in Hk.
  - cbn [get_winlogon_registrations_loop].
    destruct (parse_winlogon_registration_key_raises dict_items process_dict k Hok)
      as [Honly Hiff].
    destruct (parse_winlogon_registration_key dict_items process_dict k)
      as [e|reg] eqn:Hp.
    + split; [intros e' [= <-]; now apply Honly|].
      split; [|intros _; now exists e].
      intros _. exists k. split; [apply list_elem_of_here|].
      apply Hiff. now exists e.
    + unfold bind.
      destruct (IH (if registration_shown verbose reg then (regs ++ [reg])%list
                    else regs)) as [IH1 IH2].
      split; [exact IH1|]. rewrite IH2. split.
      * intros (k' & Hk' & Hv). exists k'. split; [now apply list_elem_of_further|].
        exact Hv.
      * intros (k' & Hk' & Hv). apply elem_of_cons in Hk' as [-> | Hk'].
        -- destruct (proj2 Hiff Hv) as (e & ?). discriminate.
        -- now exists k'.
Qed.

(** X13: [get_winlogon_registrations] raises exactly when one of the
    subkeys of Notify has no value whose name lower-cases to dllname, with
    or without the verbose option and whatever the other subkeys hold; the
    error is that of the unbound local, and no list is returned. *)
Theorem get_winlogon_registrations_raises (verbose : bool) (dict_items : dict_order)
    (process_dict : gmap Z (Task * list Module)) (subkeys : list RegistryKey) :
  dict_order_ok dict_items ->
  (get_winlogon_registrations verbose dict_items process_dict subkeys
   = raise UnboundLocalError <->
   exists k, k ∈ subkeys /\
             forall v, v ∈ values k -> PyStr.lower (vName v) <> "dllname") /\
  (forall e,
     get_winlogon_registrations verbose dict_items process_dict subkeys = raise e ->
     e = UnboundLocalError).
Proof.
  intros Hok. unfold get_winlogon_registrations.
  destruct (get_winlogon_registrations_loop_raises verbose dict_items process_dict
              subkeys [] Hok) as [Honly Hiff].
  split; [|exact Honly]. rewrite <- Hiff. split; [eauto|].
  intros (e & He). now rewrite He, (Honly e He).
Qed.

Lemma get_winlogon_registrations_raises_witness :
  (get_winlogon_registrations false stdpp_items ∅
     [notify_key; notify_key_without_dll; notify_key]
   = raise UnboundLocalError <->
   exists k, k ∈ [notify_key; notify_key_without_dll; notify_key] /\
             forall v, v ∈ values k -> PyStr.lower (vName v) <> "dllname") /\
  (forall e,
     get_winlogon_registrations false stdpp_items ∅
       [notify_key; notify_key_without_dll; notify_key] = raise e ->
     e = UnboundLocalError).
Proof.
  apply (get_winlogon_registrations_raises false stdpp_items ∅
           [notify_key; notify_key_without_dll; notify_key]).
  intros d. reflexivity.
Defined.

Lemma get_winlogon_registrations_loop_filter (dict_items : dict_order)
    (process_dict : gmap Z (Task * list Module))
    (subkeys : list RegistryKey) (regs : list NotifyEntry) :
  get_winlogon_registrations_loop false dict_items process_dict subkeys
    (List.filter (registration_shown false) regs) =
  (out <-- get_winlogon_registrations_loop true dict_items process_dict subkeys regs ;;
   ret (List.filter (registration_shown false) out)).
Proof.
  revert regs. induction subkeys as [|k subkeys IH]; intros regs; [reflexivity|].
  cbn [get_winlogon_registrations_loop].
  destruct (parse_winlogon_registration_key dict_items process_dict k) as [e|reg];
    [reflexivity|].
  unfold bind at 1 3. change (registration_shown true reg) with true. cbv iota.
  rewrite <- IH. f_equal. rewrite List.filter_app. cbn [List.filter].
  destruct (registration_shown false reg); [reflexivity | now rewrite app_nil_r].
Qed.

Lemma get_winlogon_registrations_loop_length (dict_items : dict_order)
    (process_dict : gmap Z (Task * list Module))
    (subkeys : list RegistryKey) (regs out : list NotifyEntry) :
  get_winlogon_registrations_loop true dict_items process_dict subkeys regs = ret out ->
  length out = (length regs + length subkeys)%nat.
Proof.
  revert regs. induction subkeys as [|k subkeys IH]; intros regs.
  - intros [= <-]. simpl. lia.
  - cbn [get_winlogon_registrations_loop].
    destruct (parse_winlogon_registration_key dict_items process_dict k) as [e|reg];
      [discriminate|].
    unfold bind. change (registration_shown true reg) with true. cbv iota.
    intros H. rewrite (IH _ H), length_app. simpl. lia.
Qed.

(** X14: without the verbose option the list of the registrations is the
    verbose list with the packages taken out whose DLL, after its last
    backslash, is letter for letter one of the known DLLs; the verbose list
    has one registration for every subkey of Notify. *)
Theorem get_winlogon_registrations_verbose_filter (dict_items : dict_order)
    (process_dict : gmap Z (Task * list Module)) (subkeys : list RegistryKey) :
  get_winlogon_registrations false dict_items process_dict subkeys =
  (out <-- get_winlogon_registrations true dict_items process_dict subkeys ;;
   ret (List.filter
          (fun reg =>
             negb (bool_decide (last_piece "\" (reg_dllname reg)
                                ∈ WINLOGON_REGISTRATION_KNOWN_DLLS)))
          out)) /\
  (forall out,
     get_winlogon_registrations true dict_items process_dict subkeys = ret out ->
     length out = length subkeys) /\
  (forall out,
     get_winlogon_registrations false dict_items process_dict subkeys = ret out ->
     Forall (fun reg => last_piece "\" (reg_dllname reg)
                        ∉ WINLOGON_REGISTRATION_KNOWN_DLLS) out).
Proof.
  assert (get_winlogon_registrations false dict_items process_dict subkeys =
          (out <-- get_winlogon_registrations true dict_items process_dict subkeys ;;
           ret (List.filter (registration_shown false) out))) as H
      by apply (get_winlogon_registrations_loop_filter dict_items process_dict
                  subkeys []).
  split; [exact H|]. split.
  - intros out Hout.
    now apply get_winlogon_registrations_loop_length in Hout.
  - intros out. rewrite H. unfold bind.
    destruct (get_winlogon_registrations true dict_items process_dict subkeys)
      as [e|all]; [discriminate|].
    intros [= <-]. apply Forall_forall. intros reg Hreg.
    apply list_elem_of_In, List.filter_In in Hreg as [_ Hreg].
    unfold registration_shown in Hreg. simpl in Hreg.
    now apply negb_true_iff, bool_decide_eq_false in Hreg.
Qed.

(** * The name of a hive *)

(** X15: [hive_name] never returns the empty string: it is the first of
    the full path, the user name and the root path of the hive that is a
    non-empty string, when all the attributes before it can be read, and
    the placeholder in every other case, a missing attribute included. *)
Theorem hive_name_not_empty (hive : CMHIVE) :
  hive_name hive <> EmptyString /\
  (hive_name hive = "[no name]" \/
   FileFullPath hive = Attribute (Some (hive_name hive)) \/
   FileUserName hive = Attribute (Some (hive_name hive)) \/
   HiveRootPath hive = Attribute (Some (hive_name hive))) /\
  (FileFullPath hive = NoAttribute -> hive_name hive = "[no name]").
Proof.
  unfold hive_name.
  destruct hive as [[|[[|c1 s1]|]] [|[[|c2 s2]|]] [|[[|c3 s3]|]]]; simpl;
    (split; [discriminate|]); (split; [auto | intros H; congruence]).
Qed.

(** * The kind of a hive *)

Lemma split_sep_free (sep : ascii) (s : string) :
  PyStr.contains (String sep EmptyString) s = false -> PyStr.split sep s = [s].
Proof.
  rewrite contains_single, negb_false_iff.
  induction s as [|c s IH]; simpl; [reflexivity|].
  intros [Hc Hs]%andb_prop. apply negb_true_iff, Ascii.eqb_neq in Hc.
  destruct (ascii_dec c sep) as [->|_]; [congruence|].
  now rewrite (IH Hs).
Qed.

(** Cutting a string with a separator in it: the pieces before, then the
    pieces after. *)
Lemma split_app_sep (sep : ascii) (a b : string) :
  PyStr.split sep (a ++ String sep b) = (PyStr.split sep a ++ PyStr.split sep b)%list.
Proof.
  induction a as [|c a IH].
  - rewrite append_empty_l. simpl.
    destruct (ascii_dec sep sep); [reflexivity | congruence].
  - rewrite append_cons. simpl. rewrite IH.
    destruct (ascii_dec c sep); [reflexivity|].
    pose proof (split_nonempty sep a) as Hne.
    destruct (PyStr.split sep a) as [|w ws]; [congruence | reflexivity].
Qed.

Lemma last_piece_app (sep : ascii) (dir file : string) :
  PyStr.contains (String sep EmptyString) file = false ->
  last_piece sep (dir ++ String sep file) = file.
Proof.
  intros H. unfold last_piece.
  rewrite split_app_sep, (split_sep_free _ _ H). apply List.last_last.
Qed.

Lemma upper_ascii_backslash (c : ascii) :
  PyStr.upper_ascii c = "\"%char <-> c = "\"%char.
Proof.
  destruct c as [[] [] [] [] [] [] [] []];
    (split; intros H; [vm_compute in H | vm_compute];
     first [reflexivity | discriminate H]).
Qed.

Lemma split_upper (s : string) :
  PyStr.split "\" (PyStr.upper s) = map PyStr.upper (PyStr.split "\" s).
Proof.
  induction s as [|c s IH]; simpl; [reflexivity|].
  rewrite IH.
  destruct (ascii_dec (PyStr.upper_ascii c) "\") as [Hu|Hu];
    destruct (ascii_dec c "\") as [Hc|Hc].
  - reflexivity.
  - apply (proj1 (upper_ascii_backslash c)) in Hu. congruence.
  - apply (proj2 (upper_ascii_backslash c)) in Hc. congruence.
  - destruct (PyStr.split "\" s); reflexivity.
Qed.

Lemma last_map_upper (l : list string) :
  List.last (map PyStr.upper l) EmptyString = PyStr.upper (List.last l EmptyString).
Proof.
  induction l as [|w [|w' l] IH]; [reflexivity | reflexivity |].
  exact IH.
Qed.

(** X16: the kind of a hive is read off the part of its name after the
    last backslash, whatever the directories before it, and off that part
    lower-cased, so the case of the name does not matter. *)
Theorem classify_hive_file_name (dir file : string) :
  PyStr.contains "\" file = false ->
  classify_hive (dir ++ "\" ++ file) = classify_hive file /\
  classify_hive (PyStr.upper (dir ++ "\" ++ file)) = classify_hive file /\
  classify_hive (PyStr.upper file) = classify_hive file.
Proof.
  intros Hfile.
  assert (forall name, classify_hive (PyStr.upper name) = classify_hive name) as Hup.
  { intros name. unfold classify_hive, last_piece.
    now rewrite split_upper, last_map_upper, lower_upper. }
  assert (classify_hive (dir ++ "\" ++ file) = classify_hive file) as Hdir.
  { unfold classify_hive.
    change (dir ++ "\" ++ file) with (dir ++ String "\" file).
    rewrite (last_piece_app _ dir _ Hfile).
    unfold last_piece. now rewrite (split_sep_free _ _ Hfile). }
  split; [exact Hdir|]. split; [now rewrite Hup | apply Hup].
Qed.

Lemma classify_hive_file_name_witness :
  classify_hive ("\Device\HarddiskVolume1\System32\config" ++ "\" ++ "SOFTWARE")
  = classify_hive "SOFTWARE" /\
  classify_hive
    (PyStr.upper ("\Device\HarddiskVolume1\System32\config" ++ "\" ++ "SOFTWARE"))
  = classify_hive "SOFTWARE" /\
  classify_hive (PyStr.upper "SOFTWARE") = classify_hive "SOFTWARE".
Proof.
  apply (classify_hive_file_name "\Device\HarddiskVolume1\System32\config" "SOFTWARE").
  vm_compute. reflexivity.
Defined.

(** * The search of the Run keys of a hive *)

Lemma store_results_other (hives : autoruns_dict) (name full_key other : string)
    (lwt : Z) (results : list RunEntry) :
  other <> name ->
  store_results hives name full_key lwt results !! other = hives !! other.
Proof.
  intros Hne. unfold store_results.
  destruct (0 <? length results)%nat; [|reflexivity].
  now rewrite lookup_insert_ne.
Qed.

(** What is found under the name after storing was there before or is the
    list just stored, which is not empty. *)
Lemma store_results_lookup (hives : autoruns_dict) (name full_key : string)
    (lwt : Z) (results rs : list RunEntry)
    (h : gmap (string * Z) (list RunEntry)) (k : string * Z) :
  store_results hives name full_key lwt results !! name = Some h ->
  h !! k = Some rs ->
  (k = (full_key, lwt) /\ rs = results /\ results <> []) \/
  (exists h0, hives !! name = Some h0 /\ h0 !! k = Some rs).
Proof.
  unfold store_results.
  destruct (0 <? length results)%nat eqn:Hlen; [|eauto].
  rewrite lookup_insert_eq. intros [= <-] Hk.
  destruct (decide (k = (full_key, lwt))) as [->|Hne].
  - rewrite lookup_insert_eq in Hk. injection Hk as <-. left.
    split; [reflexivity|]. split; [reflexivity|].
    apply Nat.ltb_lt in Hlen. intros ->. simpl in Hlen. lia.
  - rewrite lookup_insert_ne in Hk by done. right.
    destruct (hives !! name) as [h0|]; simpl in Hk.
    + now exists h0.
    + now rewrite lookup_empty in Hk.
Qed.

Lemma search_run_keys_other (dict_items : dict_order)
    (process_dict : gmap Z (Task * list Module))
    (open_key : RegistryKey -> list string -> option RegistryKey)
    (name other : string) (root : RegistryKey) (keys : list string)
    (hives : autoruns_dict) :
  other <> name ->
  search_run_keys dict_items process_dict open_key name root keys hives !! other
  = hives !! other.
Proof.
  intros Hne. unfold search_run_keys. revert hives.
  induction keys as [|k keys IH]; intros hives; simpl; [reflexivity|].
  rewrite IH. destruct (open_key root _); [|reflexivity].
  now apply store_results_other.
Qed.

Lemma search_run_keys_lookup (dict_items : dict_order)
    (process_dict : gmap Z (Task * list Module))
    (open_key : RegistryKey -> list string -> option RegistryKey)
    (name : string) (root : RegistryKey) (keys : list string)
    (hives : autoruns_dict)
    (h : gmap (string * Z) (list RunEntry)) (k : string * Z) (rs : list RunEntry) :
  search_run_keys dict_items process_dict open_key name root keys hives !! name
  = Some h ->
  h !! k = Some rs ->
  (exists key,
     fst k ∈ keys /\
     open_key root (PyStr.split "\" (fst k)) = Some key /\
     snd k = LastWriteTime key /\
     rs = parse_autoruns_key dict_items process_dict key /\ rs <> []) \/
  (exists h0, hives !! name = Some h0 /\ h0 !! k = Some rs).
Proof.
  unfold search_run_keys. revert hives.
  induction keys as [|full_key keys IH]; intros hives; simpl.
  - intros Hh Hk. right. now exists h.
  - intros Hh Hk. destruct (IH _ Hh Hk) as [(key & Hin & Ho & Ht & Hr) | (h0 & Hh0 & Hk0)].
    + left. exists key. split; [now apply list_elem_of_further | done].
    + destruct (open_key root (PyStr.split "\" full_key)) as [key|] eqn:Ho;
        [|right; now exists h0].
      destruct (store_results_lookup _ _ _ _ _ _ _ _ Hh0 Hk0)
        as [(-> & -> & Hne) | Hold]; [|now right].
      left. exists key. simpl. split; [apply list_elem_of_here | done].
Qed.

(** X17: the search of one hive touches only the entry of that hive's own
    name; a hive that is neither a user hive nor the software hive changes
    nothing; and every list of entries found under the name afterwards was
    there before or is the non-empty list [parse_autoruns_key] gave for one
    of the Run keys of the kind of the hive, filed under that key and its
    last-write time. So no empty list is ever stored. *)
Theorem search_hive_stores (dict_items : dict_order)
    (process_dict : gmap Z (Task * list Module))
    (open_key : RegistryKey -> list string -> option RegistryKey)
    (name : string) (root : RegistryKey) (hives : autoruns_dict) :
  no_empty_results hives ->
  no_empty_results
    (search_hive dict_items process_dict open_key name root hives) /\
  (forall other,
     other <> name ->
     search_hive dict_items process_dict open_key name root hives !! other
     = hives !! other) /\
  (classify_hive name = SystemHive \/ classify_hive name = OtherHive ->
   search_hive dict_items process_dict open_key name root hives = hives) /\
  (forall h k rs,
     search_hive dict_items process_dict open_key name root hives !! name = Some h ->
     h !! k = Some rs ->
     (exists keys key,
        run_keys (classify_hive name) = Some keys /\ fst k ∈ keys /\
        open_key root (PyStr.split "\" (fst k)) = Some key /\
        snd k = LastWriteTime key /\
        rs = parse_autoruns_key dict_items process_dict key) \/
     (exists h0, hives !! name = Some h0 /\ h0 !! k = Some rs)).
Proof.
  intros Hinv.
  assert (forall h k rs,
     search_hive dict_items process_dict open_key name root hives !! name = Some h ->
     h !! k = Some rs ->
     (exists keys key,
        run_keys (classify_hive name) = Some keys /\ fst k ∈ keys /\
        open_key root (PyStr.split "\" (fst k)) = Some key /\
        snd k = LastWriteTime key /\
        rs = parse_autoruns_key dict_items process_dict key /\ rs <> []) \/
     (exists h0, hives !! name = Some h0 /\ h0 !! k = Some rs)) as Hfound.
  { intros h k rs. unfold search_hive.
    destruct (run_keys (classify_hive name)) as [keys|] eqn:Hkeys.
    - intros Hh Hk.
      destruct (search_run_keys_lookup _ _ _ _ _ _ _ _ _ _ Hh Hk)
        as [(key & H) | Hold]; [|now right].
      left. now exists keys, key.
    - intros Hh Hk. right. now exists h. }
  assert (forall other,
     other <> name ->
     search_hive dict_items process_dict open_key name root hives !! other
     = hives !! other) as Hother.
  { intros other Hne. unfold search_hive.
    destruct (run_keys (classify_hive name)); [|reflexivity].
    now apply search_run_keys_other. }
  split; [|split; [exact Hother|split]].
  - intros n h k rs Hh Hk. destruct (decide (n = name)) as [->|Hne].
    + destruct (Hfound h k rs Hh Hk) as [(keys & key & _ & _ & _ & _ & _ & H) | (h0 & Hh0 & Hk0)];
        [exact H|]. exact (Hinv name h0 k rs Hh0 Hk0).
    + rewrite (Hother n Hne) in Hh. exact (Hinv n h k rs Hh Hk).
  - unfold search_hive. now intros [-> | ->].
  - intros h k rs Hh Hk.
    destruct (Hfound h k rs Hh Hk) as [(keys & key & H1 & H2 & H3 & H4 & H5 & _) | Hold];
      [|now right].
    left. now exists keys, key.
Qed.

Lemma search_hive_stores_witness :
  no_empty_results
    (search_hive stdpp_items ∅ open_by_path "C:\Users\a\NTUSER.DAT" ntuser_root ∅) /\
  search_hive stdpp_items ∅ open_by_path "C:\Users\a\NTUSER.DAT" ntuser_root ∅
  !! "C:\Users\a\NTUSER.DAT"
  = Some {[ ("Software\Microsoft\Windows\CurrentVersion\Run", 5) :=
              [ {| run_value := "MyApp";
                   run_data := "C:\Apps\app.exe --flag";
                   run_pids := [] |} ] ]}.
Proof.
  split.
  - apply (search_hive_stores stdpp_items ∅ open_by_path "C:\Users\a\NTUSER.DAT"
             ntuser_root ∅).
    intros name h k results H. now rewrite lookup_empty in H.
  - vm_compute. reflexivity.
Defined.

(** * Spellings of one path *)













(** * The record of a notification package *)

Lemma events_sublist (k : gmap string string) (evts : list string) :
  map fst
    (flat_map (fun evt =>
                 match k !! evt with
                 | Some handler => [(evt, PyStr.replace NUL EmptyString handler)]
                 | None => []
                 end) evts)
  `sublist_of` evts.
Proof.
  induction evts as [|evt evts IH]; simpl; [constructor|].
  destruct (k !! evt); simpl; [now apply sublist_skip | now apply sublist_cons].
Qed.

(** X19: every record [parse_winlogon_registration_key] returns carries
    the last-write time of the key and a DLL path without NUL bytes; its
    events are events of the table, in the order of the table and each at
    most once, each with the data of the value of that very name, NUL bytes
    removed; and its pids are pairwise different pids of the inventory. *)
Theorem notify_record_invariants (dict_items : dict_order)
    (process_dict : gmap Z (Task * list Module)) (key : RegistryKey)
    (r : NotifyEntry) :
  parse_winlogon_registration_key dict_items process_dict key = ret r ->
  reg_timestamp r = LastWriteTime key /\
  PyStr.contains NUL (reg_dllname r) = false /\
  map fst (reg_events r) `sublist_of` WINLOGON_NOTIFICATION_EVENTS /\
  Forall (fun eh => exists handler,
                      dict_for_key key !! fst eh = Some handler /\
                      snd eh = PyStr.replace NUL EmptyString handler)
         (reg_events r) /\
  NoDup (reg_pids r) /\
  (forall p, p ∈ reg_pids r -> is_Some (process_dict !! p)).
Proof.
  unfold parse_winlogon_registration_key.
  set (events := flat_map _ WINLOGON_NOTIFICATION_EVENTS).
  destruct (find_dllname _) as [dllname|]; [|discriminate].
  intros [= <-]. cbn [reg_timestamp reg_dllname reg_events reg_pids].
  split; [reflexivity|]. split; [apply contains_nul_replace|].
  split; [apply events_sublist|]. split.
  - apply Forall_forall. intros [evt h] Hin. subst events.
    apply list_elem_of_In, in_flat_map in Hin as (evt' & _ & Hin).
    destruct (dict_for_key key !! evt') as [handler|] eqn:Hl; [|destruct Hin].
    destruct Hin as [[= <- <-] | []]. simpl. now exists handler.
  - split; [apply find_pids_NoDup|].
    intros p Hin. apply elem_of_find_pids in Hin as (_ & tm & Hl & _). eauto.
Qed.

Lemma notify_record_invariants_witness :
  reg_timestamp
    {| reg_dllname := "C:\b.dll"; reg_events := [("Logon", "OnLogon")];
       reg_timestamp := 3; reg_pids := [] |} = LastWriteTime notify_key /\
  PyStr.contains NUL "C:\b.dll" = false /\
  map fst [("Logon", "OnLogon")] `sublist_of` WINLOGON_NOTIFICATION_EVENTS /\
  Forall (fun eh => exists handler,
                      dict_for_key notify_key !! fst eh = Some handler /\
                      snd eh = PyStr.replace NUL EmptyString handler)
         [("Logon", "OnLogon")] /\
  NoDup ([] : list Z) /\
  (forall p, p ∈ ([] : list Z) -> is_Some ((∅ : gmap Z (Task * list Module)) !! p)).
Proof.
  apply (notify_record_invariants stdpp_items ∅ notify_key
           {| reg_dllname := "C:\b.dll"; reg_events := [("Logon", "OnLogon")];
              reg_timestamp := 3; reg_pids := [] |}).
  vm_compute. reflexivity.
Defined.
